(** * libcolord: the CdDevice client proxy (libcolord/cd-device.c)

    A shallow embedding of the device proxy object: the private instance
    data, the synchronous bind, the two D-Bus callbacks and the outgoing
    method calls.  GLib, GDBus and the daemon are the environment; what
    the device code asks of them is written out below. *)

From Stdlib Require Import String List NArith Bool Arith Lia.
Import ListNotations.
Local Open Scope string_scope.

(** ** The GLib values the device code handles *)

Module GLib.

(** A GVariant, restricted to the D-Bus types this file reads or builds:
    "s", "o", "t", arrays and tuples. *)
#[warnings="-register-all"]
Inductive GVariant : Type :=
| GVString (s : string)
| GVObjectPath (s : string)
| GVUint64 (n : N)
| GVArray (children : list GVariant)
| GVTuple (children : list GVariant).

(** A GError as set by g_set_error: the quark's string and the message.
    The only code this file sets is CD_DEVICE_ERROR_FAILED. *)
Record GError : Type := { domain : string; message : string }.

(** What a call leaves behind: either it returns, or it has passed GLib a
    value outside the callee's documented contract (a NULL GVariant, a
    variant of another type), after which the C program has no defined
    behaviour. *)
Inductive Outcome (A : Type) : Type :=
| Done (a : A)
| GLibFault.
Arguments Done {A} a.
Arguments GLibFault {A}.

Definition guint64_modulus : N := 2 ^ 64.

(** g_variant_get_string: valid on string, object path (and signature)
    variants only. *)
Definition g_variant_get_string (v : GVariant) : option string :=
  match v with
  | GVString s | GVObjectPath s => Some s
  | _ => None
  end.

(** g_variant_dup_string is g_strdup of g_variant_get_string. *)
Definition g_variant_dup_string (v : GVariant) : option string :=
  g_variant_get_string v.

(** g_variant_get_uint64: valid on "t" only; the result is a guint64. *)
Definition g_variant_get_uint64 (v : GVariant) : option N :=
  match v with
  | GVUint64 n => Some (n mod guint64_modulus)%N
  | _ => None
  end.

(** g_variant_iter_init returns the number of children of a container;
    the value must be a non-NULL container. *)
Definition g_variant_iter_init (value : option GVariant) : option nat :=
  match value with
  | Some (GVArray children) | Some (GVTuple children) => Some (length children)
  | _ => None
  end.

(** g_variant_get_child (value, i, "o", &path). *)
Definition g_variant_get_child_o (value : GVariant) (i : nat) : option string :=
  match value with
  | GVArray children | GVTuple children =>
      match nth_error children i with
      | Some (GVObjectPath s) => Some s
      | _ => None
      end
  | _ => None
  end.

(** g_variant_get (response, "(o)", &object_path). *)
Definition g_variant_get_o (response : GVariant) : option string :=
  match response with
  | GVTuple [GVObjectPath s] => Some s
  | _ => None
  end.

(** g_variant_new ("(ss)", a, b), g_variant_new ("(s)", a) and
    g_variant_new ("(o)", a): every string must be non-NULL. *)
Definition g_variant_new_ss (a b : option string) : option GVariant :=
  match a, b with
  | Some a', Some b' => Some (GVTuple [GVString a'; GVString b'])
  | _, _ => None
  end.

Definition g_variant_new_s (a : option string) : option GVariant :=
  option_map (fun a' => GVTuple [GVString a']) a.

Definition g_variant_new_o (a : option string) : option GVariant :=
  option_map (fun a' => GVTuple [GVObjectPath a']) a.

(** printf's %s, with glibc's rendering of a NULL pointer. *)
Definition fmt_s (s : option string) : string :=
  match s with Some s' => s' | None => "(null)" end.

(** g_strcmp0 (a, b) == 0 on two non-NULL strings. *)
Definition g_strcmp0_eq (a b : string) : bool := String.eqb a b.

(** Lookup in a string-keyed property table (first match). *)
Fixpoint lookup_property (table : list (string * GVariant)) (name : string)
  : option GVariant :=
  match table with
  | [] => None
  | (k, v) :: rest => if String.eqb k name then Some v else lookup_property rest name
  end.

End GLib.
Export GLib.

(** ** Objects *)

(** CdDeviceKind is a C enum, carried as a guint by the "kind" property. *)
Definition CdDeviceKind : Type := N.

(** Modelled from the spec: cd-enum.h, which declares the enum, is not
    among the sources verified here.  The Unknown sentinel is the enum's
    zero, which is the kind of a freshly zero-filled instance and the
    minimum and default of the "kind" property. *)
Definition CD_DEVICE_KIND_UNKNOWN : CdDeviceKind := 0%N.

(** Modelled from the spec: CdProfile is cd-profile.c's, which is not
    among the sources verified here.  A profile reference is a handle
    identified by a remote object path; it also carries the identifier
    MakeProfileDefault sends. *)
Record CdProfile : Type := {
  profile_object_path : option string;
  profile_id : option string
}.

Definition cd_profile_new : CdProfile :=
  {| profile_object_path := None; profile_id := None |}.

Definition cd_profile_get_object_path (profile : CdProfile) : option string :=
  profile_object_path profile.

Definition cd_profile_get_id (profile : CdProfile) : option string :=
  profile_id profile.

(** The callbacks this file connects to its GDBusProxy. *)
Inductive Callback : Type :=
| CB_cd_device_dbus_signal_cb
| CB_cd_device_dbus_properties_changed.

(** The part of a GDBusProxy the device code touches: what it was created
    for, its property cache, and the handlers connected with
    g_signal_connect, in connection order. *)
Record GDBusProxy : Type := {
  g_name : string;
  g_object_path : string;
  g_interface_name : string;
  cached_properties : list (string * GVariant);
  handlers : list (string * Callback)
}.

Definition g_dbus_proxy_get_cached_property (p : GDBusProxy) (name : string)
  : option GVariant :=
  lookup_property (cached_properties p) name.

Definition connect_handler (detailed_signal : string) (cb : Callback)
  (p : GDBusProxy) : GDBusProxy :=
  {| g_name := g_name p;
     g_object_path := g_object_path p;
     g_interface_name := g_interface_name p;
     cached_properties := cached_properties p;
     handlers := handlers p ++ [(detailed_signal, cb)] |}.

(** struct _CdDevicePrivate *)
Record CdDevicePrivate : Type := {
  proxy : option GDBusProxy;
  object_path : option string;
  id : option string;
  model : option string;
  created : N;
  profiles : list CdProfile;
  kind : CdDeviceKind
}.

(** cd_device_init: the instance private data is zero-filled and the
    profile array is created empty. *)
Definition cd_device_init : CdDevicePrivate :=
  {| proxy := None;
     object_path := None;
     id := None;
     model := None;
     created := 0%N;
     profiles := [];
     kind := 0%N |}.

Definition set_proxy (v : option GDBusProxy) (d : CdDevicePrivate) :=
  {| proxy := v; object_path := object_path d; id := id d; model := model d;
     created := created d; profiles := profiles d; kind := kind d |}.
Definition set_object_path (v : option string) (d : CdDevicePrivate) :=
  {| proxy := proxy d; object_path := v; id := id d; model := model d;
     created := created d; profiles := profiles d; kind := kind d |}.
Definition set_id (v : option string) (d : CdDevicePrivate) :=
  {| proxy := proxy d; object_path := object_path d; id := v; model := model d;
     created := created d; profiles := profiles d; kind := kind d |}.
Definition set_model (v : option string) (d : CdDevicePrivate) :=
  {| proxy := proxy d; object_path := object_path d; id := id d; model := v;
     created := created d; profiles := profiles d; kind := kind d |}.
Definition set_created (v : N) (d : CdDevicePrivate) :=
  {| proxy := proxy d; object_path := object_path d; id := id d; model := model d;
     created := v; profiles := profiles d; kind := kind d |}.
Definition set_profiles (v : list CdProfile) (d : CdDevicePrivate) :=
  {| proxy := proxy d; object_path := object_path d; id := id d; model := model d;
     created := created d; profiles := v; kind := kind d |}.
Definition set_kind (v : CdDeviceKind) (d : CdDevicePrivate) :=
  {| proxy := proxy d; object_path := object_path d; id := id d; model := model d;
     created := created d; profiles := profiles d; kind := v |}.

(** ** GObject property values *)

(** A GValue, restricted to the types of the four properties the class
    installs: string (possibly NULL), guint64 and guint. *)
Inductive GValue : Type :=
| GValueString (s : option string)
| GValueUint64 (n : N)
| GValueUint (n : N).

Definition guint_modulus : N := 2 ^ 32.

(** g_value_get_string, g_value_get_uint64, g_value_get_uint: each is
    valid on a value holding its own type only. *)
Definition g_value_get_string (value : GValue) : option (option string) :=
  match value with GValueString s => Some s | _ => None end.

Definition g_value_get_uint64 (value : GValue) : option N :=
  match value with
  | GValueUint64 n => Some (n mod guint64_modulus)%N
  | _ => None
  end.

Definition g_value_get_uint (value : GValue) : option N :=
  match value with
  | GValueUint n => Some (n mod guint_modulus)%N
  | _ => None
  end.

(** The property ids: enum { PROP_0, PROP_CREATED, PROP_ID, PROP_MODEL,
    PROP_KIND, PROP_LAST }. *)
Definition PROP_0 : N := 0.
Definition PROP_CREATED : N := 1.
Definition PROP_ID : N := 2.
Definition PROP_MODEL : N := 3.
Definition PROP_KIND : N := 4.
Definition PROP_LAST : N := 5.

(** ** The environment *)

(** What leaves the process: every synchronous exchange with the bus. *)
Inductive Request : Type :=
| ProxyNewForBus (name path interface : string)
| ProxyCall (path method : string) (parameters : GVariant)
| ProfileSetObjectPath (path : string).

(** The signals the CdDevice object itself emits to its observers.
    "changed" is VOID__VOID: it carries no argument. *)
Inductive DeviceSignal : Type :=
| SIGNAL_CHANGED.

(** GLib's message log. *)
Inductive LogEntry : Type :=
| LogCritical (func expr : string)
| LogWarning (text : string)
| LogDebug (text : string).

(** The bus and the daemon behind it, as the replies they give.  Every
    reply may depend on all the requests made so far, so the remote side
    is free to change between two calls. *)
Record Daemon : Type := {
  reply_proxy_new :
    list Request -> string -> string -> string -> GError + list (string * GVariant);
  reply_call :
    list Request -> string -> string -> GVariant -> GError + GVariant;
  reply_profile :
    list Request -> string -> GError + option string
}.

(** The device instance together with everything observable around it. *)
Record State : Type := {
  priv : CdDevicePrivate;
  requests : list Request;
  emitted : list DeviceSignal;
  messages : list LogEntry
}.

Definition cd_device_new : State :=
  {| priv := cd_device_init; requests := []; emitted := []; messages := [] |}.

(** ** Stateful code: state passing with GLib faults *)

Definition Action (A : Type) : Type := State -> Outcome (A * State).

Definition ret {A : Type} (a : A) : Action A := fun st => Done (a, st).

Definition bind {A B : Type} (c : Action A) (k : A -> Action B) : Action B :=
  fun st =>
    match c st with
    | Done (a, st') => k a st'
    | GLibFault => GLibFault
    end.

Declare Scope action_scope.
Delimit Scope action_scope with action.
Notation "x <- c ;; k" := (bind c (fun x => k))
  (at level 61, c at next level, right associativity) : action_scope.
Notation "c ;; k" := (bind c (fun _ => k))
  (at level 61, right associativity) : action_scope.
Local Open Scope action_scope.

Definition get_priv : Action CdDevicePrivate := fun st => Done (priv st, st).

Definition modify_priv (f : CdDevicePrivate -> CdDevicePrivate) : Action unit :=
  fun st =>
    Done (tt, {| priv := f (priv st); requests := requests st;
                 emitted := emitted st; messages := messages st |}).

Definition log (e : LogEntry) : Action unit :=
  fun st =>
    Done (tt, {| priv := priv st; requests := requests st;
                 emitted := emitted st; messages := messages st ++ [e] |}).

(** g_signal_emit (device, signals[s], 0) *)
Definition g_signal_emit (s : DeviceSignal) : Action unit :=
  fun st =>
    Done (tt, {| priv := priv st; requests := requests st;
                 emitted := emitted st ++ [s]; messages := messages st |}).

(** Record a request and hand back the history it was made in. *)
Definition send (r : Request) : Action (list Request) :=
  fun st =>
    Done (requests st,
          {| priv := priv st; requests := requests st ++ [r];
             emitted := emitted st; messages := messages st |}).

(** A GLib accessor applied inside its contract, or a fault. *)
Definition within_contract {A : Type} (o : option A) : Action A :=
  fun st => match o with Some a => Done (a, st) | None => GLibFault end.

(** g_return_val_if_fail's failing branch: a critical message. *)
Definition g_return_if_fail_warning (func expr : string) : Action unit :=
  log (LogCritical func expr).

(** ** A daemon to run the code against

    One concrete environment, used to evaluate the code on explicit
    inputs: a display device with two profiles, and a daemon that refuses
    to resolve the path /profile/bad. *)

Module Fixture.

Definition service : string := "org.freedesktop.ColorManager".
Definition interface : string := "org.freedesktop.ColorManager.Device".

Definition kind_from_string (s : string) : CdDeviceKind :=
  if String.eqb s "display" then 1%N
  else if String.eqb s "scanner" then 2%N
  else if String.eqb s "printer" then 3%N
  else if String.eqb s "camera" then 4%N
  else CD_DEVICE_KIND_UNKNOWN.

Definition kind_to_string (k : CdDeviceKind) : option string :=
  Some (if N.eqb k 1 then "display"
        else if N.eqb k 2 then "scanner"
        else if N.eqb k 3 then "printer"
        else if N.eqb k 4 then "camera"
        else "unknown").

Definition display_properties : list (string * GVariant) :=
  [ ("DeviceId", GVString "xrandr-lvds1");
    ("Kind", GVString "display");
    ("Model", GVString "LVDS panel");
    ("Created", GVUint64 1300000000);
    ("Profiles", GVArray [GVObjectPath "/profile/1"; GVObjectPath "/profile/2"]) ].

(** Only the profile list is exposed; every scalar is absent. *)
Definition bare_properties : list (string * GVariant) :=
  [ ("Profiles", GVArray [GVObjectPath "/profile/1"]) ].

(** The second profile of the list does not resolve. *)
Definition broken_properties : list (string * GVariant) :=
  [ ("DeviceId", GVString "xrandr-lvds1");
    ("Profiles", GVArray [GVObjectPath "/profile/1"; GVObjectPath "/profile/bad"]) ].

Definition refusal : GError :=
  {| domain := "g-io-error-quark"; message := "no such object" |}.

Definition daemon_with (properties : list (string * GVariant)) : Daemon :=
  {| reply_proxy_new := fun _ _ _ _ => inr properties;
     reply_call := fun _ _ method _ =>
       if String.eqb method "GetProfileForQualifier"
       then inr (GVTuple [GVObjectPath "/profile/1"])
       else inr (GVTuple []);
     reply_profile := fun _ path =>
       if String.eqb path "/profile/bad" then inl refusal
       else inr (Some ("icc-" ++ path)) |}.

Definition daemon : Daemon := daemon_with display_properties.

Definition profile_at (path : string) : CdProfile :=
  {| profile_object_path := Some path; profile_id := Some ("icc-" ++ path) |}.

Definition listening_proxy : GDBusProxy :=
  {| g_name := service;
     g_object_path := "/device/lvds1";
     g_interface_name := interface;
     cached_properties := display_properties;
     handlers := [ ("g-signal", CB_cd_device_dbus_signal_cb);
                   ("g-properties-changed", CB_cd_device_dbus_properties_changed) ] |}.

(** The display device once bound to /device/lvds1. *)
Definition bound_device : CdDevicePrivate :=
  {| proxy := Some listening_proxy;
     object_path := Some "/device/lvds1";
     id := Some "xrandr-lvds1";
     model := Some "LVDS panel";
     created := 1300000000%N;
     profiles := [profile_at "/profile/1"; profile_at "/profile/2"];
     kind := 1%N |}.

Definition bound : State :=
  {| priv := bound_device;
     requests := [ ProxyNewForBus service "/device/lvds1" interface;
                   ProfileSetObjectPath "/profile/1";
                   ProfileSetObjectPath "/profile/2" ];
     emitted := [];
     messages := [ LogDebug "Connected to device xrandr-lvds1" ] |}.

(** The same device when its bind stopped at /profile/bad: connected,
    nothing listening. *)
Definition silent_proxy : GDBusProxy :=
  {| g_name := service;
     g_object_path := "/device/lvds1";
     g_interface_name := interface;
     cached_properties := broken_properties;
     handlers := [] |}.

Definition half_bound : State :=
  {| priv := {| proxy := Some silent_proxy;
                object_path := Some "/device/lvds1";
                id := Some "xrandr-lvds1";
                model := None;
                created := 0%N;
                profiles := [profile_at "/profile/1"];
                kind := CD_DEVICE_KIND_UNKNOWN |};
     requests := [ ProxyNewForBus service "/device/lvds1" interface;
                   ProfileSetObjectPath "/profile/1";
                   ProfileSetObjectPath "/profile/bad" ];
     emitted := [];
     messages := [] |}.

Definition unresolved : GError :=
  {| domain := "cd_device_error";
     message := "Failed to set profile object path: no such object" |}.

(** A bus on which nothing answers. *)
Definition offline : Daemon :=
  {| reply_proxy_new := fun _ _ _ _ => inl refusal;
     reply_call := fun _ _ _ _ => inl refusal;
     reply_profile := fun _ _ => inl refusal |}.

(** A daemon that recommends a profile it can no longer resolve. *)
Definition stale : Daemon :=
  {| reply_proxy_new := fun _ _ _ _ => inr display_properties;
     reply_call := fun _ _ _ _ => inr (GVTuple [GVObjectPath "/profile/bad"]);
     reply_profile := fun _ path =>
       if String.eqb path "/profile/bad" then inl refusal
       else inr (Some ("icc-" ++ path)) |}.

(** A bus that refuses the first connection and accepts the later ones. *)
Definition flaky : Daemon :=
  {| reply_proxy_new := fun history _ _ _ =>
       match history with
       | [] => inl refusal
       | _ :: _ => inr display_properties
       end;
     reply_call := fun _ _ _ _ => inr (GVTuple []);
     reply_profile := fun _ path => inr (Some ("icc-" ++ path)) |}.

End Fixture.

(** ** The device code *)

Section Device.

(** COLORD_DBUS_SERVICE and COLORD_DBUS_INTERFACE_DEVICE are macros of
    cd-device.h; cd_device_kind_from_string and cd_device_kind_to_string
    are cd-enum.c's.  None of them is defined in cd-device.c: the code
    below is read for any value of them, and against any daemon. *)
Variable COLORD_DBUS_SERVICE : string.
Variable COLORD_DBUS_INTERFACE_DEVICE : string.
Variable cd_device_kind_from_string : string -> CdDeviceKind.
Variable cd_device_kind_to_string : CdDeviceKind -> option string.
Variable daemon : Daemon.

(** cd_device_error_quark *)
Definition cd_device_error_quark : string := "cd_device_error".

(** g_set_error (error, CD_DEVICE_ERROR, CD_DEVICE_ERROR_FAILED, ...).  The
    GError ** out-parameter is returned beside the result; a caller that
    passes NULL drops it. *)
Definition g_set_error (text : string) : option GError :=
  Some {| domain := cd_device_error_quark; message := text |}.

(** g_dbus_proxy_new_for_bus_sync (G_BUS_TYPE_SYSTEM, ..., name,
    object_path, interface_name, ...): a fresh proxy, nothing connected,
    or NULL and an error. *)
Definition g_dbus_proxy_new_for_bus_sync (name path interface : string)
  : Action (GError + GDBusProxy) :=
  history <- send (ProxyNewForBus name path interface) ;;
  match reply_proxy_new daemon history name path interface with
  | inl e => ret (inl e)
  | inr cache =>
      ret (inr {| g_name := name; g_object_path := path;
                  g_interface_name := interface;
                  cached_properties := cache; handlers := [] |})
  end.

(** g_dbus_proxy_call_sync (proxy, method, parameters, ...): the proxy
    and the parameters must be non-NULL. *)
Definition g_dbus_proxy_call_sync (p : option GDBusProxy) (method : string)
  (parameters : option GVariant) : Action (GError + GVariant) :=
  p' <- within_contract p ;;
  parameters' <- within_contract parameters ;;
  history <- send (ProxyCall (g_object_path p') method parameters') ;;
  ret (reply_call daemon history (g_object_path p') method parameters').

(** Modelled from the spec: cd_profile_set_object_path_sync is
    cd-profile.c's, which is not among the sources verified here.
    Resolving a path into a profile reference is itself a remote bind
    that can fail on its own; when it succeeds the reference is
    identified by that path. *)
Definition cd_profile_set_object_path_sync (profile : CdProfile) (path : string)
  : Action (GError + CdProfile) :=
  history <- send (ProfileSetObjectPath path) ;;
  match reply_profile daemon history path with
  | inl e => ret (inl e)
  | inr ident =>
      ret (inr {| profile_object_path := Some path; profile_id := ident |})
  end.

(** g_signal_connect (device->priv->proxy, detailed_signal, cb, device) *)
Definition g_signal_connect (detailed_signal : string) (cb : Callback)
  : Action unit :=
  modify_priv (fun d => set_proxy (option_map (connect_handler detailed_signal cb)
                                              (proxy d)) d).

(** The for loop of cd_device_set_profiles_array_from_variant, from
    index [i] with [n] iterations left. *)
Fixpoint set_profiles_loop (variant : GVariant) (i n : nat)
  : Action (bool * option GError) :=
  match n with
  | O => ret (true, None)
  | S n' =>
      object_path_tmp <- within_contract (g_variant_get_child_o variant i) ;;
      r <- cd_profile_set_object_path_sync cd_profile_new object_path_tmp ;;
      match r with
      | inl error_local =>
          ret (false,
               g_set_error ("Failed to set profile object path: "
                            ++ message error_local))
      | inr profile_tmp =>
          modify_priv (fun d => set_profiles (profiles d ++ [profile_tmp]) d) ;;
          set_profiles_loop variant (S i) n'
      end
  end.

(** cd_device_set_profiles_array_from_variant *)
Definition cd_device_set_profiles_array_from_variant (variant : option GVariant)
  : Action (bool * option GError) :=
  modify_priv (set_profiles []) ;;
  len <- within_contract (g_variant_iter_init variant) ;;
  v <- within_contract variant ;;
  set_profiles_loop v 0 len.

(** One iteration of the loop of cd_device_dbus_properties_changed. *)
Definition properties_changed_entry (property_name : string)
  (property_value : GVariant) : Action unit :=
  if g_strcmp0_eq property_name "Model" then
    s <- within_contract (g_variant_dup_string property_value) ;;
    modify_priv (set_model (Some s))
  else if g_strcmp0_eq property_name "Kind" then
    s <- within_contract (g_variant_get_string property_value) ;;
    modify_priv (set_kind (cd_device_kind_from_string s))
  else if g_strcmp0_eq property_name "Profiles" then
    cd_device_set_profiles_array_from_variant (Some property_value) ;;
    ret tt
  else
    log (LogWarning (property_name ++ " property unhandled")).

(** cd_device_dbus_properties_changed.  [changed_properties] is the
    a{sv} dictionary, entry by entry. *)
Fixpoint cd_device_dbus_properties_changed
  (changed_properties : list (string * GVariant))
  (invalidated_properties : list string) : Action unit :=
  match changed_properties with
  | [] => ret tt
  | (property_name, property_value) :: rest =>
      properties_changed_entry property_name property_value ;;
      cd_device_dbus_properties_changed rest invalidated_properties
  end.

(** cd_device_dbus_signal_cb *)
Definition cd_device_dbus_signal_cb (sender_name signal_name : string)
  (parameters : GVariant) : Action unit :=
  if g_strcmp0_eq signal_name "Changed" then
    d <- get_priv ;;
    log (LogDebug ("emit Changed on " ++ fmt_s (object_path d))) ;;
    g_signal_emit SIGNAL_CHANGED
  else
    log (LogWarning ("unhandled signal '" ++ signal_name ++ "'")).

(** The guarded reads of cd_device_set_object_path_sync: a cached
    property is decoded and stored only when it is there. *)
Definition read_cached {A : Type} (v : option GVariant)
  (decode : GVariant -> option A) (store : A -> CdDevicePrivate -> CdDevicePrivate)
  : Action unit :=
  match v with
  | Some v' => a <- within_contract (decode v') ;; modify_priv (store a)
  | None => ret tt
  end.

(** cd_device_set_object_path_sync *)
Definition cd_device_set_object_path_sync (path : string)
  : Action (bool * option GError) :=
  d <- get_priv ;;
  match proxy d with
  | Some _ =>
      g_return_if_fail_warning "cd_device_set_object_path_sync"
                               "device->priv->proxy == NULL" ;;
      ret (false, None)
  | None =>
      r <- g_dbus_proxy_new_for_bus_sync COLORD_DBUS_SERVICE path
                                         COLORD_DBUS_INTERFACE_DEVICE ;;
      match r with
      | inl error_local =>
          ret (false,
               g_set_error ("Failed to connect to device " ++ path ++ ": "
                            ++ message error_local))
      | inr p =>
          modify_priv (set_proxy (Some p)) ;;
          modify_priv (set_object_path (Some path)) ;;
          read_cached (g_dbus_proxy_get_cached_property p "DeviceId")
                      g_variant_dup_string (fun s => set_id (Some s)) ;;
          read_cached (g_dbus_proxy_get_cached_property p "Kind")
                      g_variant_get_string
                      (fun s => set_kind (cd_device_kind_from_string s)) ;;
          read_cached (g_dbus_proxy_get_cached_property p "Model")
                      g_variant_dup_string (fun s => set_model (Some s)) ;;
          read_cached (g_dbus_proxy_get_cached_property p "Created")
                      g_variant_get_uint64 set_created ;;
          res <- cd_device_set_profiles_array_from_variant
                   (g_dbus_proxy_get_cached_property p "Profiles") ;;
          if fst res then
            g_signal_connect "g-signal" CB_cd_device_dbus_signal_cb ;;
            g_signal_connect "g-properties-changed"
                             CB_cd_device_dbus_properties_changed ;;
            d' <- get_priv ;;
            log (LogDebug ("Connected to device " ++ fmt_s (id d'))) ;;
            ret (true, None)
          else
            ret res
      end
  end.

(** cd_device_set_property_sync *)
Definition cd_device_set_property_sync (name : string) (value : option string)
  : Action (bool * option GError) :=
  d <- get_priv ;;
  response <- g_dbus_proxy_call_sync (proxy d) "SetProperty"
                                     (g_variant_new_ss (Some name) value) ;;
  match response with
  | inl error_local =>
      ret (false,
           g_set_error ("Failed to set profile object path: "
                        ++ message error_local))
  | inr _ => ret (true, None)
  end.

(** cd_device_set_model_sync *)
Definition cd_device_set_model_sync (value : option string)
  : Action (bool * option GError) :=
  d <- get_priv ;;
  match proxy d with
  | None =>
      g_return_if_fail_warning "cd_device_set_model_sync"
                               "device->priv->proxy != NULL" ;;
      ret (false, None)
  | Some _ => cd_device_set_property_sync "Model" value
  end.

(** cd_device_set_kind_sync *)
Definition cd_device_set_kind_sync (k : CdDeviceKind)
  : Action (bool * option GError) :=
  d <- get_priv ;;
  match proxy d with
  | None =>
      g_return_if_fail_warning "cd_device_set_kind_sync"
                               "device->priv->proxy != NULL" ;;
      ret (false, None)
  | Some _ => cd_device_set_property_sync "Kind" (cd_device_kind_to_string k)
  end.

(** cd_device_add_profile_sync *)
Definition cd_device_add_profile_sync (profile : CdProfile)
  : Action (bool * option GError) :=
  d <- get_priv ;;
  match proxy d with
  | None =>
      g_return_if_fail_warning "cd_device_add_profile_sync"
                               "device->priv->proxy != NULL" ;;
      ret (false, None)
  | Some _ =>
      response <- g_dbus_proxy_call_sync (proxy d) "AddProfile"
                    (g_variant_new_o (cd_profile_get_object_path profile)) ;;
      match response with
      | inl error_local =>
          ret (false,
               g_set_error ("Failed to add profile to device: "
                            ++ message error_local))
      | inr _ => ret (true, None)
      end
  end.

(** cd_device_make_profile_default_sync *)
Definition cd_device_make_profile_default_sync (profile : CdProfile)
  : Action (bool * option GError) :=
  d <- get_priv ;;
  match proxy d with
  | None =>
      g_return_if_fail_warning "cd_device_make_profile_default_sync"
                               "device->priv->proxy != NULL" ;;
      ret (false, None)
  | Some _ =>
      response <- g_dbus_proxy_call_sync (proxy d) "MakeProfileDefault"
                    (g_variant_new_s (cd_profile_get_id profile)) ;;
      match response with
      | inl error_local =>
          ret (false,
               g_set_error ("Failed to make profile default on device: "
                            ++ message error_local))
      | inr _ => ret (true, None)
      end
  end.

(** cd_device_get_profile_for_qualifier_sync *)
Definition cd_device_get_profile_for_qualifier_sync (qualifier : option string)
  : Action (option CdProfile * option GError) :=
  match qualifier with
  | None =>
      g_return_if_fail_warning "cd_device_get_profile_for_qualifier_sync"
                               "qualifier != NULL" ;;
      ret (None, None)
  | Some q =>
      d <- get_priv ;;
      match proxy d with
      | None =>
          g_return_if_fail_warning "cd_device_get_profile_for_qualifier_sync"
                                   "device->priv->proxy != NULL" ;;
          ret (None, None)
      | Some _ =>
          response <- g_dbus_proxy_call_sync (proxy d) "GetProfileForQualifier"
                        (g_variant_new_s (Some q)) ;;
          match response with
          | inl error_local =>
              ret (None,
                   g_set_error ("Failed to get a suitable profile: "
                                ++ message error_local))
          | inr v =>
              path <- within_contract (g_variant_get_o v) ;;
              r <- cd_profile_set_object_path_sync cd_profile_new path ;;
              match r with
              | inl e => ret (None, Some e)
              | inr profile_tmp => ret (Some profile_tmp, None)
              end
          end
      end
  end.

(** The accessors. *)
Definition cd_device_get_id (st : State) : option string := id (priv st).
Definition cd_device_get_model (st : State) : option string := model (priv st).
Definition cd_device_get_created (st : State) : N := created (priv st).
Definition cd_device_get_kind (st : State) : CdDeviceKind := kind (priv st).
Definition cd_device_get_profiles (st : State) : list CdProfile := profiles (priv st).
Definition cd_device_get_object_path (st : State) : option string :=
  object_path (priv st).

(** cd_device_set_property, the class's set_property: a switch on the
    property id.  The default branch is G_OBJECT_WARN_INVALID_PROPERTY_ID,
    a g_warning whose text (file, line, type names) is not reproduced. *)
Definition cd_device_set_property (prop_id : N) (value : GValue) : Action unit :=
  if N.eqb prop_id PROP_ID then
    s <- within_contract (g_value_get_string value) ;;
    modify_priv (set_id s)
  else if N.eqb prop_id PROP_MODEL then
    s <- within_contract (g_value_get_string value) ;;
    modify_priv (set_model s)
  else if N.eqb prop_id PROP_CREATED then
    n <- within_contract (g_value_get_uint64 value) ;;
    modify_priv (set_created n)
  else if N.eqb prop_id PROP_KIND then
    n <- within_contract (g_value_get_uint value) ;;
    modify_priv (set_kind n)
  else
    log (LogWarning "invalid property id").

(** cd_device_get_property.  The GValue the caller passes in is returned
    as set by the matching g_value_set_*; [None] when it is left
    untouched.  The kind, a C enum, is converted to guint. *)
Definition cd_device_get_property (prop_id : N) : Action (option GValue) :=
  d <- get_priv ;;
  if N.eqb prop_id PROP_CREATED then
    ret (Some (GValueUint64 (created d)))
  else if N.eqb prop_id PROP_ID then
    ret (Some (GValueString (id d)))
  else if N.eqb prop_id PROP_MODEL then
    ret (Some (GValueString (model d)))
  else if N.eqb prop_id PROP_KIND then
    ret (Some (GValueUint (kind d mod guint_modulus)%N))
  else
    log (LogWarning "invalid property id") ;;
    ret None.

(** ** Delivery of the proxy's signals

    GObject runs the handlers connected to the emitted signal in the
    order they were connected.  Only "g-signal" and
    "g-properties-changed" reach this file. *)
Inductive ProxyEvent : Type :=
| GSignal (sender_name signal_name : string) (parameters : GVariant)
| GPropertiesChanged (changed_properties : list (string * GVariant))
                     (invalidated_properties : list string).

Definition detailed_signal_of (ev : ProxyEvent) : string :=
  match ev with
  | GSignal _ _ _ => "g-signal"
  | GPropertiesChanged _ _ => "g-properties-changed"
  end.

Definition invoke (cb : Callback) (ev : ProxyEvent) : Action unit :=
  match cb, ev with
  | CB_cd_device_dbus_signal_cb, GSignal sender_name signal_name parameters =>
      cd_device_dbus_signal_cb sender_name signal_name parameters
  | CB_cd_device_dbus_properties_changed, GPropertiesChanged changed invalidated =>
      cd_device_dbus_properties_changed changed invalidated
  | _, _ => ret tt
  end.

Fixpoint run_handlers (hs : list (string * Callback)) (ev : ProxyEvent)
  : Action unit :=
  match hs with
  | [] => ret tt
  | (detailed_signal, cb) :: rest =>
      (if String.eqb detailed_signal (detailed_signal_of ev)
       then invoke cb ev else ret tt) ;;
      run_handlers rest ev
  end.

(** One event arriving from the bus on the device's proxy, if it has one. *)
Definition deliver (ev : ProxyEvent) : Action unit :=
  d <- get_priv ;;
  match proxy d with
  | None => ret tt
  | Some p => run_handlers (handlers p) ev
  end.

(** Events arriving one after the other. *)
Fixpoint deliver_all (evs : list ProxyEvent) : Action unit :=
  match evs with
  | [] => ret tt
  | ev :: rest => deliver ev ;; deliver_all rest
  end.

(** ** Vocabulary of the statements *)

(** The position of the first path of [paths] whose resolution the daemon
    refuses, when the paths are resolved one after the other starting in
    history [history]; [None] when every one of them resolves. *)
Fixpoint first_failure (history : list Request) (paths : list string)
  : option nat :=
  match paths with
  | [] => None
  | path :: rest =>
      match reply_profile daemon history path with
      | inl _ => Some 0
      | inr _ =>
          option_map S (first_failure (history ++ [ProfileSetObjectPath path]) rest)
      end
  end.

(** The "ao" variant holding [paths]. *)
Definition object_paths (paths : list string) : GVariant :=
  GVArray (map GVObjectPath paths).

(** The device went through a complete bind: its proxy carries the two
    handlers, each connected once. *)
Definition listening (st : State) : Prop :=
  exists p, proxy (priv st) = Some p /\
    handlers p = [ ("g-signal", CB_cd_device_dbus_signal_cb);
                   ("g-properties-changed", CB_cd_device_dbus_properties_changed) ].

(** The states of a bound device: the one a bind that returned TRUE
    leaves, and every state reached from it by what the bus delivers and
    by the calls of the public interface. *)
Inductive Bound : State -> Prop :=
| Bound_bind (st : State) (path : string) (e : option GError) (st' : State) :
    proxy (priv st) = None ->
    cd_device_set_object_path_sync path st = Done ((true, e), st') ->
    Bound st'
| Bound_deliver (st : State) (ev : ProxyEvent) (st' : State) :
    Bound st -> deliver ev st = Done (tt, st') -> Bound st'
| Bound_rebind (st : State) (path : string) (r : bool * option GError)
    (st' : State) :
    Bound st -> cd_device_set_object_path_sync path st = Done (r, st') ->
    Bound st'
| Bound_set_model (st : State) (value : option string)
    (r : bool * option GError) (st' : State) :
    Bound st -> cd_device_set_model_sync value st = Done (r, st') -> Bound st'
| Bound_set_kind (st : State) (k : CdDeviceKind) (r : bool * option GError)
    (st' : State) :
    Bound st -> cd_device_set_kind_sync k st = Done (r, st') -> Bound st'
| Bound_add_profile (st : State) (profile : CdProfile)
    (r : bool * option GError) (st' : State) :
    Bound st -> cd_device_add_profile_sync profile st = Done (r, st') ->
    Bound st'
| Bound_make_profile_default (st : State) (profile : CdProfile)
    (r : bool * option GError) (st' : State) :
    Bound st -> cd_device_make_profile_default_sync profile st = Done (r, st') ->
    Bound st'
| Bound_get_profile_for_qualifier (st : State) (qualifier : option string)
    (r : option CdProfile * option GError) (st' : State) :
    Bound st ->
    cd_device_get_profile_for_qualifier_sync qualifier st = Done (r, st') ->
    Bound st'.

Definition is_changed (ev : ProxyEvent) : Prop :=
  exists sender_name parameters, ev = GSignal sender_name "Changed" parameters.

Definition is_string (v : GVariant) : Prop := exists s, v = GVString s.
Definition is_uint64 (v : GVariant) : Prop :=
  exists n, v = GVUint64 n /\ (n < guint64_modulus)%N.

(** A cached attribute is either absent or of its declared D-Bus type. *)
Definition absent_or (P : GVariant -> Prop) (v : option GVariant) : Prop :=
  match v with Some v' => P v' | None => True end.

(** The effect of one guarded read of the bind on the private data: the
    decoded value is stored when the attribute is there. *)
Definition stored {A : Type} (v : option GVariant) (decode : GVariant -> option A)
  (store : A -> CdDevicePrivate -> CdDevicePrivate) (d : CdDevicePrivate)
  : CdDevicePrivate :=
  match v with
  | Some v' => match decode v' with Some a => store a d | None => d end
  | None => d
  end.

(** The proxy g_dbus_proxy_new_for_bus_sync hands back for [path] when the
    daemon answers with the property set [cache]. *)
Definition fresh_proxy (path : string) (cache : list (string * GVariant))
  : GDBusProxy :=
  {| g_name := COLORD_DBUS_SERVICE; g_object_path := path;
     g_interface_name := COLORD_DBUS_INTERFACE_DEVICE;
     cached_properties := cache; handlers := [] |}.

(** The private data after the four guarded scalar reads of a bind to
    [path] that found the property set [cache]. *)
Definition after_scalar_reads (path : string) (cache : list (string * GVariant))
  (d : CdDevicePrivate) : CdDevicePrivate :=
  stored (lookup_property cache "Created") g_variant_get_uint64 set_created
    (stored (lookup_property cache "Model") g_variant_dup_string
            (fun s => set_model (Some s))
       (stored (lookup_property cache "Kind") g_variant_get_string
               (fun s => set_kind (cd_device_kind_from_string s))
          (stored (lookup_property cache "DeviceId") g_variant_dup_string
                  (fun s => set_id (Some s))
             (set_object_path (Some path)
                (set_proxy (Some (fresh_proxy path cache)) d))))).

(** The same device with another cached profile list. *)
Definition with_profiles (cached : list CdProfile) (st : State) : State :=
  {| priv := set_profiles cached (priv st); requests := requests st;
     emitted := emitted st; messages := messages st |}.

(** What a call [c] that forwards [method] with [parameters] through the
    proxy [p] does from [st]: with NULL parameters it leaves GLib's
    contract; otherwise it returns, TRUE exactly when the daemon answered
    with a reply, the request is the only trace it leaves, and neither
    the private data nor the observers see anything. *)
Definition fire_and_forget (c : Action (bool * option GError)) (p : GDBusProxy)
  (method : string) (parameters : option GVariant) (st : State) : Prop :=
  match parameters with
  | None => c st = GLibFault
  | Some a =>
      exists res st',
        c st = Done (res, st')
        /\ (fst res = true <->
            exists v, reply_call daemon (requests st) (g_object_path p) method a
                      = inr v)
        /\ priv st' = priv st
        /\ emitted st' = emitted st
        /\ requests st'
           = (requests st ++ [ProxyCall (g_object_path p) method a])%list
  end.

(** What the bus can never change on a device: the proxy, the object
    path, the id and the creation time. *)
Definition same_identity (d d' : CdDevicePrivate) : Prop :=
  proxy d' = proxy d
  /\ object_path d' = object_path d
  /\ id d' = id d
  /\ created d' = created d.

(** The "Changed" signals among the events of a sequence. *)
Definition is_changed_signal (ev : ProxyEvent) : bool :=
  match ev with
  | GSignal _ signal_name _ => g_strcmp0_eq signal_name "Changed"
  | GPropertiesChanged _ _ => false
  end.

Definition count_changed (evs : list ProxyEvent) : nat :=
  length (filter is_changed_signal evs).

(** The proxy of the device was made for the colord service and the
    device interface, at the object path the device records, and carries
    the two handlers. *)
Definition consistent (st : State) : Prop :=
  exists p,
    proxy (priv st) = Some p
    /\ object_path (priv st) = Some (g_object_path p)
    /\ g_name p = COLORD_DBUS_SERVICE
    /\ g_interface_name p = COLORD_DBUS_INTERFACE_DEVICE
    /\ handlers p = [ ("g-signal", CB_cd_device_dbus_signal_cb);
                      ("g-properties-changed",
                       CB_cd_device_dbus_properties_changed) ].

(** The tail of cd_device_set_object_path_sync, from the result of the
    profile resolution on. *)
Definition finish_bind (res : bool * option GError)
  : Action (bool * option GError) :=
  if fst res then
    g_signal_connect "g-signal" CB_cd_device_dbus_signal_cb ;;
    g_signal_connect "g-properties-changed"
                     CB_cd_device_dbus_properties_changed ;;
    d' <- get_priv ;;
    log (LogDebug ("Connected to device " ++ fmt_s (id d'))) ;;
    ret (true, None)
  else
    ret res.

(** The profile references the daemon resolves for [paths], one after
    the other starting in history [history], up to the first path it
    refuses: for each resolved path, the reference bound to that path
    with the identifier the daemon gave for it. *)
Fixpoint resolved_references (history : list Request) (paths : list string)
  : list CdProfile :=
  match paths with
  | [] => []
  | path :: rest =>
      match reply_profile daemon history path with
      | inl _ => []
      | inr ident =>
          {| profile_object_path := Some path; profile_id := ident |}
          :: resolved_references (history ++ [ProfileSetObjectPath path]) rest
      end
  end.

(** An entry of a change set for an attribute other than Profiles, with
    a string value when the attribute is Model or Kind. *)
Definition scalar_entry (entry : string * GVariant) : Prop :=
  fst entry <> "Profiles"
  /\ (fst entry = "Model" \/ fst entry = "Kind" -> is_string (snd entry)).

(** The warnings the properties handler logs for the entries it does not
    handle. *)
Definition unhandled_warning (entry : string * GVariant) : list LogEntry :=
  if g_strcmp0_eq (fst entry) "Model" then []
  else if g_strcmp0_eq (fst entry) "Kind" then []
  else if g_strcmp0_eq (fst entry) "Profiles" then []
  else [LogWarning (fst entry ++ " property unhandled")].

Definition unhandled_warnings (entries : list (string * GVariant))
  : list LogEntry :=
  flat_map unhandled_warning entries.

(** ** Auxiliary facts *)

Lemma set_profiles_same (d : CdDevicePrivate) :
  set_profiles (profiles d) d = d.
Proof. destruct d; reflexivity. Qed.

Lemma state_eta (st : State) :
  {| priv := priv st; requests := requests st;
     emitted := emitted st; messages := messages st |} = st.
Proof. destruct st; reflexivity. Qed.

Lemma get_child_object_paths (done rest : list string) (path : string) :
  g_variant_get_child_o (object_paths (done ++ path :: rest)) (length done)
  = Some path.
Proof.
  unfold object_paths, g_variant_get_child_o.
  rewrite nth_error_map, nth_error_app2 by lia.
  rewrite Nat.sub_diag. reflexivity.
Qed.

(** What the loop does on a well-typed path list, in terms of the first
    refusal. *)
Lemma set_profiles_loop_spec (rest : list string) :
  forall (done : list string) (st : State),
  exists res new st',
    set_profiles_loop (object_paths (done ++ rest)) (length done) (length rest) st
      = Done (res, st')
    /\ priv st' = set_profiles (profiles (priv st) ++ new) (priv st)
    /\ emitted st' = emitted st
    /\ messages st' = messages st
    /\ match first_failure (requests st) rest with
       | None =>
           res = (true, None)
           /\ map profile_object_path new = map Some rest
           /\ requests st' = (requests st ++ map ProfileSetObjectPath rest)%list
       | Some k =>
           fst res = false
           /\ k < length rest
           /\ map profile_object_path new = map Some (firstn k rest)
           /\ requests st'
              = (requests st ++ map ProfileSetObjectPath (firstn (S k) rest))%list
       end.
Proof.
  induction rest as [| path rest IH]; intros done st.
  - exists (true, None), [], st. simpl.
    rewrite !app_nil_r, set_profiles_same. repeat split; reflexivity.
  - cbn [length set_profiles_loop first_failure].
    unfold bind at 1. unfold within_contract.
    rewrite get_child_object_paths.
    unfold bind at 1. unfold cd_profile_set_object_path_sync at 1.
    unfold bind at 1. unfold send at 1. cbn [requests].
    destruct (reply_profile daemon (requests st) path) as [e | ident] eqn:Hreply.
    + eexists _, [], _. unfold ret. split; [reflexivity |].
      cbn [priv emitted messages requests fst firstn map length].
      rewrite app_nil_r, set_profiles_same.
      repeat split; try reflexivity; lia.
    + unfold ret at 1. unfold bind at 1. unfold modify_priv at 1.
      set (pr := {| profile_object_path := Some path; profile_id := ident |}).
      set (st1 := {| priv := _; requests := _; emitted := _; messages := _ |}).
      specialize (IH (done ++ [path])%list st1).
      rewrite <- app_assoc, length_app in IH. cbn [app length] in IH.
      rewrite Nat.add_1_r in IH.
      destruct IH as (res & new & st' & Hrun & Hpriv & Hem & Hmsg & Hcase).
      exists res, (pr :: new), st'.
      split; [exact Hrun |].
      split.
      { rewrite Hpriv. subst st1. cbn [priv profiles set_profiles].
        rewrite <- app_assoc. reflexivity. }
      split; [exact Hem |]. split; [exact Hmsg |].
      subst st1. cbn [requests] in Hcase.
      destruct (first_failure (requests st ++ [ProfileSetObjectPath path])%list rest)
        as [k |]; cbn [option_map].
      * destruct Hcase as (Hres & Hk & Hnew & Hreq).
        repeat split.
        -- exact Hres.
        -- lia.
        -- cbn [firstn map]. rewrite Hnew. reflexivity.
        -- rewrite Hreq, <- app_assoc. reflexivity.
      * destruct Hcase as (Hres & Hnew & Hreq).
        repeat split.
        -- exact Hres.
        -- cbn [map]. rewrite Hnew. reflexivity.
        -- rewrite Hreq, <- app_assoc. reflexivity.
Qed.

Lemma bind_done {A B : Type} (c : Action A) (k : A -> Action B)
  (st st' : State) (a : A) :
  c st = Done (a, st') -> bind c k st = k a st'.
Proof. intros H. unfold bind. rewrite H. reflexivity. Qed.

Lemma bind_fault {A B : Type} (c : Action A) (k : A -> Action B) (st : State) :
  c st = GLibFault -> bind c k st = GLibFault.
Proof. intros H. unfold bind. rewrite H. reflexivity. Qed.

Lemma bind_ret_tt (c : Action unit) (st : State) :
  bind c (fun _ => ret tt) st = c st.
Proof.
  unfold bind, ret. destruct (c st) as [[[] st'] |]; reflexivity.
Qed.

(** The whole of cd_device_set_profiles_array_from_variant on a
    well-typed path list: the array is emptied, then filled up to the
    first refusal. *)
Lemma set_profiles_array_spec (paths : list string) (st : State) :
  exists res new st',
    cd_device_set_profiles_array_from_variant (Some (object_paths paths)) st
      = Done (res, st')
    /\ priv st' = set_profiles new (priv st)
    /\ emitted st' = emitted st
    /\ messages st' = messages st
    /\ match first_failure (requests st) paths with
       | None =>
           res = (true, None)
           /\ map profile_object_path new = map Some paths
           /\ requests st' = (requests st ++ map ProfileSetObjectPath paths)%list
       | Some k =>
           fst res = false
           /\ k < length paths
           /\ map profile_object_path new = map Some (firstn k paths)
           /\ requests st'
              = (requests st ++ map ProfileSetObjectPath (firstn (S k) paths))%list
       end.
Proof.
  unfold cd_device_set_profiles_array_from_variant.
  unfold bind at 1. unfold modify_priv at 1.
  unfold bind at 1. unfold within_contract at 1.
  cbn [g_variant_iter_init object_paths]. rewrite length_map.
  unfold bind at 1. unfold within_contract at 1.
  set (st0 := {| priv := _; requests := _; emitted := _; messages := _ |}).
  destruct (set_profiles_loop_spec paths [] st0)
    as (res & new & st' & Hrun & Hpriv & Hem & Hmsg & Hcase).
  exists res, new, st'. cbn [app length] in Hrun.
  split; [exact Hrun |].
  subst st0. cbn [priv requests emitted messages profiles set_profiles] in *.
  repeat split; assumption.
Qed.

(** A handler connected to the other signal is skipped; delivery to a
    listening device runs exactly the matching callback. *)
Lemma deliver_listening (ev : ProxyEvent) (st : State) :
  listening st ->
  deliver ev st =
    match ev with
    | GSignal sender_name signal_name parameters =>
        cd_device_dbus_signal_cb sender_name signal_name parameters st
    | GPropertiesChanged changed invalidated =>
        cd_device_dbus_properties_changed changed invalidated st
    end.
Proof.
  intros (p & Hp & Hh). unfold deliver, bind at 1, get_priv.
  rewrite Hp, Hh. destruct ev; cbn [run_handlers detailed_signal_of invoke].
  - change (String.eqb "g-signal" "g-signal") with true.
    change (String.eqb "g-properties-changed" "g-signal") with false.
    cbn iota. rewrite bind_ret_tt. reflexivity.
  - change (String.eqb "g-signal" "g-properties-changed") with false.
    change (String.eqb "g-properties-changed" "g-properties-changed") with true.
    cbn iota. unfold bind at 1, ret at 1. rewrite bind_ret_tt. reflexivity.
Qed.

(** The "changed" callback: one emission, nothing else of the device or
    of the bus traffic moves. *)
Lemma signal_cb_changed (sender_name : string) (parameters : GVariant)
  (st : State) :
  exists st',
    cd_device_dbus_signal_cb sender_name "Changed" parameters st = Done (tt, st')
    /\ priv st' = priv st
    /\ requests st' = requests st
    /\ emitted st' = (emitted st ++ [SIGNAL_CHANGED])%list.
Proof.
  unfold cd_device_dbus_signal_cb, g_strcmp0_eq.
  change (String.eqb "Changed" "Changed") with true. cbn iota.
  unfold bind, get_priv, log, g_signal_emit. cbn [priv requests emitted messages].
  eexists. repeat split.
Qed.

Lemma Forall_prefix {A : Type} (P : A -> Prop) (n : nat) :
  forall l : list A, Forall P l -> Forall P (firstn n l).
Proof.
  induction n as [| n IH]; intros l Hall; cbn [firstn].
  - constructor.
  - destruct Hall as [| x l Hx Hrest]; constructor; [exact Hx | apply IH, Hrest].
Qed.

Lemma deliver_all_changed (evs : list ProxyEvent) :
  forall st : State,
    listening st ->
    Forall is_changed evs ->
    exists st',
      deliver_all evs st = Done (tt, st')
      /\ priv st' = priv st
      /\ requests st' = requests st
      /\ emitted st' = (emitted st ++ repeat SIGNAL_CHANGED (length evs))%list.
Proof.
  induction evs as [| ev evs IH]; intros st Hl Hall.
  - exists st. cbn. rewrite app_nil_r. repeat split.
  - inversion Hall as [| ? ? (sender_name & parameters & Hev) Hrest]; subst.
    destruct (signal_cb_changed sender_name parameters st)
      as (st1 & Hrun & Hpriv & Hreq & Hem).
    assert (Hl1 : listening st1).
    { destruct Hl as (p & Hp & Hh). exists p. rewrite Hpriv. split; assumption. }
    destruct (IH st1 Hl1 Hrest) as (st' & Hrun' & Hpriv' & Hreq' & Hem').
    exists st'. cbn [deliver_all length repeat].
    rewrite (bind_done _ _ st st1 tt).
    + split; [exact Hrun' |]. rewrite Hpriv', Hreq', Hem', Hpriv, Hreq, Hem.
      rewrite <- app_assoc. repeat split.
    + rewrite deliver_listening by exact Hl. exact Hrun.
Qed.

Lemma read_cached_spec {A : Type} (v : option GVariant)
  (decode : GVariant -> option A)
  (store : A -> CdDevicePrivate -> CdDevicePrivate) (st : State) :
  absent_or (fun v' => decode v' <> None) v ->
  read_cached v decode store st
  = Done (tt, {| priv := stored v decode store (priv st);
                 requests := requests st; emitted := emitted st;
                 messages := messages st |}).
Proof.
  unfold read_cached, stored, absent_or. destruct v as [v' |]; intros H.
  - unfold bind, within_contract, modify_priv.
    destruct (decode v'); [reflexivity | contradiction].
  - unfold ret. rewrite state_eta. reflexivity.
Qed.

Lemma is_string_decodes (v : option GVariant) :
  absent_or is_string v -> absent_or (fun v' => g_variant_get_string v' <> None) v.
Proof.
  destruct v as [v' |]; cbn; [| trivial].
  intros (s & ->). discriminate.
Qed.

Lemma is_uint64_decodes (v : option GVariant) :
  absent_or is_uint64 v -> absent_or (fun v' => g_variant_get_uint64 v' <> None) v.
Proof.
  destruct v as [v' |]; cbn; [| trivial].
  intros (n & -> & _). discriminate.
Qed.

Lemma stored_frame {A B : Type} (field : CdDevicePrivate -> B)
  (v : option GVariant) (decode : GVariant -> option A)
  (store : A -> CdDevicePrivate -> CdDevicePrivate) (d : CdDevicePrivate) :
  (forall a d', field (store a d') = field d') ->
  field (stored v decode store d) = field d.
Proof.
  intros H. unfold stored. destruct v as [v' |]; [| reflexivity].
  destruct (decode v'); [apply H | reflexivity].
Qed.

Lemma after_scalar_reads_proxy (path : string) (cache : list (string * GVariant))
  (d : CdDevicePrivate) :
  proxy (after_scalar_reads path cache d) = Some (fresh_proxy path cache).
Proof.
  unfold after_scalar_reads.
  rewrite !(stored_frame proxy) by reflexivity. reflexivity.
Qed.

Lemma connect_twice (d : CdDevicePrivate) (p : GDBusProxy)
  (s1 s2 : string) (cb1 cb2 : Callback) :
  proxy d = Some p ->
  set_proxy (option_map (connect_handler s2 cb2)
               (proxy (set_proxy (option_map (connect_handler s1 cb1) (proxy d)) d)))
            (set_proxy (option_map (connect_handler s1 cb1) (proxy d)) d)
  = set_proxy (Some (connect_handler s2 cb2 (connect_handler s1 cb1 p))) d.
Proof. intros H. cbn. rewrite H. reflexivity. Qed.

(** The bind of an unbound device whose connection succeeds and whose
    cached attributes have their declared types, up to the outcome of the
    profile resolution. *)
Lemma bind_connected (st : State) (path : string)
  (cache : list (string * GVariant)) (paths : list string) :
  proxy (priv st) = None ->
  reply_proxy_new daemon (requests st) COLORD_DBUS_SERVICE path
                  COLORD_DBUS_INTERFACE_DEVICE = inr cache ->
  absent_or is_string (lookup_property cache "DeviceId") ->
  absent_or is_string (lookup_property cache "Kind") ->
  absent_or is_string (lookup_property cache "Model") ->
  absent_or is_uint64 (lookup_property cache "Created") ->
  lookup_property cache "Profiles" = Some (object_paths paths) ->
  exists res new st',
    cd_device_set_object_path_sync path st = Done (res, st')
    /\ emitted st' = emitted st
    /\ map profile_object_path new
       = map Some match first_failure
                          (requests st ++ [ProxyNewForBus COLORD_DBUS_SERVICE path
                                             COLORD_DBUS_INTERFACE_DEVICE])%list
                          paths with
                  | None => paths
                  | Some k => firstn k paths
                  end
    /\ match first_failure
               (requests st ++ [ProxyNewForBus COLORD_DBUS_SERVICE path
                                  COLORD_DBUS_INTERFACE_DEVICE])%list paths with
       | None =>
           res = (true, None)
           /\ priv st'
              = set_proxy
                  (Some (connect_handler "g-properties-changed"
                           CB_cd_device_dbus_properties_changed
                           (connect_handler "g-signal" CB_cd_device_dbus_signal_cb
                              (fresh_proxy path cache))))
                  (set_profiles new (after_scalar_reads path cache (priv st)))
       | Some k =>
           fst res = false
           /\ k < length paths
           /\ priv st' = set_profiles new (after_scalar_reads path cache (priv st))
       end.
Proof.
  intros Hproxy Hreply Hid Hkind Hmodel Hcreated Hprofiles.
  unfold cd_device_set_object_path_sync.
  unfold bind at 1, get_priv. rewrite Hproxy.
  unfold bind at 1, g_dbus_proxy_new_for_bus_sync.
  unfold bind at 1, send. rewrite Hreply. unfold ret at 1.
  unfold bind at 1, modify_priv at 1.
  unfold bind at 1, modify_priv at 1.
  cbn [priv requests emitted messages].
  unfold g_dbus_proxy_get_cached_property. cbn [cached_properties].
  fold (fresh_proxy path cache).
  rewrite (bind_done _ _ _ _ _
             (read_cached_spec _ _ _ _ (is_string_decodes _ Hid))).
  rewrite (bind_done _ _ _ _ _
             (read_cached_spec _ _ _ _ (is_string_decodes _ Hkind))).
  rewrite (bind_done _ _ _ _ _
             (read_cached_spec _ _ _ _ (is_string_decodes _ Hmodel))).
  rewrite (bind_done _ _ _ _ _
             (read_cached_spec _ _ _ _ (is_uint64_decodes _ Hcreated))).
  cbn [priv requests emitted messages].
  rewrite Hprofiles.
  set (st4 := {| priv := _; requests := _; emitted := _; messages := _ |}).
  assert (Hpriv4 : priv st4 = after_scalar_reads path cache (priv st))
    by reflexivity.
  destruct (set_profiles_array_spec paths st4)
    as (res & new & st5 & Hrun & Hpriv & Hem & Hmsg & Hcase).
  rewrite (bind_done _ _ _ _ _ Hrun).
  rewrite Hpriv4 in Hpriv. clear Hpriv4.
  subst st4. cbn [requests emitted messages] in *.
  destruct (first_failure
              (requests st ++ [ProxyNewForBus COLORD_DBUS_SERVICE path
                                 COLORD_DBUS_INTERFACE_DEVICE])%list paths)
    as [k |].
  - destruct Hcase as (Hres & Hk & Hnew & Hreq).
    rewrite Hres. exists res, new, st5.
    repeat split; assumption.
  - destruct Hcase as (Hres & Hnew & Hreq). subst res. cbn [fst].
    unfold bind, g_signal_connect, modify_priv, get_priv, log, ret.
    cbn [priv requests emitted messages].
    eexists (true, None), new, _. split; [reflexivity |].
    cbn [priv requests emitted messages].
    split; [exact Hem |]. split; [exact Hnew |]. split; [reflexivity |].
    rewrite (connect_twice (priv st5) (fresh_proxy path cache)).
    + rewrite Hpriv. reflexivity.
    + rewrite Hpriv. cbn [proxy set_profiles]. apply after_scalar_reads_proxy.
Qed.

Lemma read_cached_cases {A : Type} (v : option GVariant)
  (decode : GVariant -> option A)
  (store : A -> CdDevicePrivate -> CdDevicePrivate) (st : State) :
  read_cached v decode store st = GLibFault
  \/ read_cached v decode store st
     = Done (tt, {| priv := stored v decode store (priv st);
                    requests := requests st; emitted := emitted st;
                    messages := messages st |}).
Proof.
  unfold read_cached, stored. destruct v as [v' |].
  - unfold bind, within_contract, modify_priv.
    destruct (decode v'); [right | left]; reflexivity.
  - right. unfold ret. rewrite state_eta. reflexivity.
Qed.

(** The loop only ever touches the profile array and the request log,
    whatever variant it walks. *)
Lemma set_profiles_loop_frame (variant : GVariant) (n : nat) :
  forall (i : nat) (st : State) (res : bool * option GError) (st' : State),
    set_profiles_loop variant i n st = Done (res, st') ->
    exists new,
      priv st' = set_profiles new (priv st) /\ emitted st' = emitted st.
Proof.
  induction n as [| n IH]; intros i st res st' Hrun.
  - cbn in Hrun. injection Hrun as _ <-.
    exists (profiles (priv st)). rewrite set_profiles_same. split; reflexivity.
  - cbn [set_profiles_loop] in Hrun.
    unfold bind at 1, within_contract in Hrun.
    destruct (g_variant_get_child_o variant i) as [path |]; [| discriminate].
    unfold bind at 1, cd_profile_set_object_path_sync in Hrun.
    unfold bind at 1, send in Hrun.
    destruct (reply_profile daemon (requests st) path) as [e | ident].
    + unfold ret in Hrun. injection Hrun as _ <-. cbn [priv emitted].
      exists (profiles (priv st)). rewrite set_profiles_same. split; reflexivity.
    + unfold ret at 1, bind at 1, modify_priv at 1 in Hrun.
      apply IH in Hrun. destruct Hrun as (new & Hpriv & Hem).
      exists new. cbn [priv emitted] in *. split; assumption.
Qed.

Lemma set_profiles_array_frame (variant : option GVariant) (st : State)
  (res : bool * option GError) (st' : State) :
  cd_device_set_profiles_array_from_variant variant st = Done (res, st') ->
  exists new,
    priv st' = set_profiles new (priv st) /\ emitted st' = emitted st.
Proof.
  unfold cd_device_set_profiles_array_from_variant.
  unfold bind at 1, modify_priv at 1.
  unfold bind at 1, within_contract at 1.
  destruct (g_variant_iter_init variant) as [len |]; [| discriminate].
  unfold bind at 1, within_contract at 1.
  destruct variant as [v |]; [| discriminate].
  intros Hrun. apply set_profiles_loop_frame in Hrun.
  destruct Hrun as (new & Hpriv & Hem). exists new. split; assumption.
Qed.

(** With no handler connected, nothing the bus delivers reaches the
    device. *)
Lemma deliver_all_unconnected (evs : list ProxyEvent) (st : State)
  (p : GDBusProxy) :
  proxy (priv st) = Some p ->
  handlers p = [] ->
  deliver_all evs st = Done (tt, st).
Proof.
  intros Hp Hh. induction evs as [| ev evs IH]; [reflexivity |].
  cbn [deliver_all]. rewrite (bind_done _ _ st st tt); [exact IH |].
  unfold deliver, bind, get_priv. rewrite Hp, Hh. reflexivity.
Qed.

Lemma call_sync_run (p : GDBusProxy) (method : string) (parameters : GVariant)
  (st : State) :
  g_dbus_proxy_call_sync (Some p) method (Some parameters) st
  = Done (reply_call daemon (requests st) (g_object_path p) method parameters,
          {| priv := priv st;
             requests := requests st
                         ++ [ProxyCall (g_object_path p) method parameters];
             emitted := emitted st; messages := messages st |}).
Proof. reflexivity. Qed.

Lemma call_sync_frame (p : option GDBusProxy) (method : string)
  (parameters : option GVariant) (st : State)
  (r : GError + GVariant) (st' : State) :
  g_dbus_proxy_call_sync p method parameters st = Done (r, st') ->
  priv st' = priv st /\ emitted st' = emitted st.
Proof.
  destruct p as [p' |], parameters as [a |]; try discriminate.
  rewrite call_sync_run. intros H. injection H as _ <-. split; reflexivity.
Qed.

(** The guard of the bind, on a device that has a proxy. *)
Lemma bind_guard (st : State) (p : GDBusProxy) (path : string) :
  proxy (priv st) = Some p ->
  cd_device_set_object_path_sync path st
  = Done ((false, None),
          {| priv := priv st; requests := requests st; emitted := emitted st;
             messages := messages st
                         ++ [LogCritical "cd_device_set_object_path_sync"
                                         "device->priv->proxy == NULL"] |}).
Proof.
  intros Hp. unfold cd_device_set_object_path_sync.
  unfold bind at 1, get_priv. rewrite Hp. reflexivity.
Qed.

(** *** A bound device listens *)

Lemma properties_changed_proxy (changed : list (string * GVariant))
  (invalidated : list string) :
  forall st st' : State,
    cd_device_dbus_properties_changed changed invalidated st = Done (tt, st') ->
    proxy (priv st') = proxy (priv st).
Proof.
  induction changed as [| [name value] rest IH]; intros st st' Hrun.
  - injection Hrun as <-. reflexivity.
  - cbn [cd_device_dbus_properties_changed] in Hrun.
    unfold bind at 1 in Hrun.
    destruct (properties_changed_entry name value st) as [[[] st1] |] eqn:Hentry;
      [| discriminate].
    apply IH in Hrun. rewrite Hrun. clear Hrun IH.
    unfold properties_changed_entry in Hentry.
    destruct (g_strcmp0_eq name "Model").
    { unfold bind, within_contract, modify_priv in Hentry.
      destruct (g_variant_dup_string value); [| discriminate].
      injection Hentry as <-. reflexivity. }
    destruct (g_strcmp0_eq name "Kind").
    { unfold bind, within_contract, modify_priv in Hentry.
      destruct (g_variant_get_string value); [| discriminate].
      injection Hentry as <-. reflexivity. }
    destruct (g_strcmp0_eq name "Profiles").
    { unfold bind at 1 in Hentry.
      destruct (cd_device_set_profiles_array_from_variant (Some value) st)
        as [[res st2] |] eqn:Hset; [| discriminate].
      injection Hentry as <-.
      apply set_profiles_array_frame in Hset.
      destruct Hset as (new & Hpriv & _). rewrite Hpriv. reflexivity. }
    unfold log in Hentry. injection Hentry as <-. reflexivity.
Qed.

Lemma signal_cb_proxy (sender_name signal_name : string) (parameters : GVariant)
  (st st' : State) :
  cd_device_dbus_signal_cb sender_name signal_name parameters st = Done (tt, st') ->
  proxy (priv st') = proxy (priv st).
Proof.
  unfold cd_device_dbus_signal_cb.
  destruct (g_strcmp0_eq signal_name "Changed");
    unfold bind, get_priv, log, g_signal_emit; intros H;
    injection H as <-; reflexivity.
Qed.

Lemma listening_same_proxy (st st' : State) :
  proxy (priv st') = proxy (priv st) -> listening st -> listening st'.
Proof.
  intros Heq (p & Hp & Hh). exists p. rewrite Heq. split; assumption.
Qed.

Lemma forward_frame (p : option GDBusProxy) (method : string)
  (parameters : option GVariant) (text : string) (st : State)
  (r : bool * option GError) (st' : State) :
  bind (g_dbus_proxy_call_sync p method parameters)
       (fun response =>
          match response with
          | inl error_local => ret (false, g_set_error (text ++ message error_local))
          | inr _ => ret (true, None)
          end) st = Done (r, st') ->
  priv st' = priv st.
Proof.
  unfold bind at 1.
  destruct (g_dbus_proxy_call_sync p method parameters st)
    as [[response st1] |] eqn:Hcall; [| discriminate].
  apply call_sync_frame in Hcall. destruct Hcall as (Hpriv & _).
  destruct response; unfold ret; intros H; injection H as _ <-; exact Hpriv.
Qed.

Lemma set_property_sync_frame (name : string) (value : option string)
  (st : State) (r : bool * option GError) (st' : State) :
  cd_device_set_property_sync name value st = Done (r, st') ->
  priv st' = priv st.
Proof.
  unfold cd_device_set_property_sync, bind at 1, get_priv.
  apply forward_frame.
Qed.

Lemma get_profile_for_qualifier_frame (qualifier : option string) (st : State)
  (r : option CdProfile * option GError) (st' : State) :
  cd_device_get_profile_for_qualifier_sync qualifier st = Done (r, st') ->
  priv st' = priv st.
Proof.
  unfold cd_device_get_profile_for_qualifier_sync.
  destruct qualifier as [q |].
  - unfold bind at 1, get_priv.
    destruct (proxy (priv st)) as [p |].
    + unfold bind at 1.
      destruct (g_dbus_proxy_call_sync (Some p) "GetProfileForQualifier"
                  (g_variant_new_s (Some q)) st)
        as [[response st1] |] eqn:Hcall; [| discriminate].
      apply call_sync_frame in Hcall. destruct Hcall as (Hpriv & _).
      destruct response as [e | v].
      * unfold ret. intros H. injection H as _ <-. exact Hpriv.
      * unfold bind at 1, within_contract.
        destruct (g_variant_get_o v) as [path |]; [| discriminate].
        unfold bind at 1, cd_profile_set_object_path_sync, bind at 1, send.
        destruct (reply_profile daemon (requests st1) path);
          unfold ret; intros H; injection H as _ <-; exact Hpriv.
    + unfold bind, g_return_if_fail_warning, log, ret.
      intros H. injection H as _ <-. reflexivity.
  - unfold bind, g_return_if_fail_warning, log, ret.
    intros H. injection H as _ <-. reflexivity.
Qed.

(** A bind that returns TRUE has connected both handlers to a fresh
    proxy. *)
Lemma bind_true_listening (st : State) (path : string) (e : option GError)
  (st' : State) :
  proxy (priv st) = None ->
  cd_device_set_object_path_sync path st = Done ((true, e), st') ->
  listening st'.
Proof.
  intros Hproxy. unfold cd_device_set_object_path_sync.
  unfold bind at 1, get_priv. rewrite Hproxy.
  unfold bind at 1, g_dbus_proxy_new_for_bus_sync.
  unfold bind at 1, send.
  destruct (reply_proxy_new daemon (requests st) COLORD_DBUS_SERVICE path
              COLORD_DBUS_INTERFACE_DEVICE) as [err | cache].
  - unfold ret. discriminate.
  - unfold ret at 1.
    unfold bind at 1, modify_priv at 1.
    unfold bind at 1, modify_priv at 1.
    unfold g_dbus_proxy_get_cached_property. cbn [cached_properties].
    cbn [priv requests emitted messages].
    repeat match goal with
           | |- bind (read_cached ?v ?d ?s) ?k ?s0 = _ -> _ =>
               destruct (read_cached_cases v d s s0) as [Hf | Hd];
               [ rewrite (bind_fault _ _ _ Hf); discriminate
               | rewrite (bind_done _ _ _ _ _ Hd); clear Hd ]
           end.
    cbn [priv requests emitted messages].
    match goal with
    | |- bind ?c _ ?s0 = _ -> _ => destruct (c s0) as [[res5 st5] |] eqn:Hset
    end.
    + rewrite (bind_done _ _ _ _ _ Hset).
      apply set_profiles_array_frame in Hset.
      destruct Hset as (new & Hpriv & _). cbn [priv] in Hpriv.
      assert (Hp5 : proxy (priv st5) = Some (fresh_proxy path cache)).
      { rewrite Hpriv. cbn [proxy set_profiles].
        rewrite !(stored_frame proxy) by reflexivity. reflexivity. }
      destruct (fst res5) eqn:Hfst.
      * unfold bind, g_signal_connect, modify_priv, get_priv, log, ret.
        intros H. injection H as _ <-.
        unfold listening. cbn [priv proxy set_proxy]. rewrite Hp5.
        eexists. split; reflexivity.
      * unfold ret. intros H. injection H as Hres _.
        rewrite Hres in Hfst. discriminate Hfst.
    + rewrite (bind_fault _ _ _ Hset). discriminate.
Qed.

Lemma deliver_keeps_listening (ev : ProxyEvent) (st st' : State) :
  listening st -> deliver ev st = Done (tt, st') -> listening st'.
Proof.
  intros Hl. rewrite (deliver_listening ev st Hl). destruct ev; intros Hrun.
  - apply (listening_same_proxy st st'); [| exact Hl].
    apply (signal_cb_proxy _ _ _ _ _ Hrun).
  - apply (listening_same_proxy st st'); [| exact Hl].
    apply (properties_changed_proxy _ _ _ _ Hrun).
Qed.

(** Every state of a bound device has both handlers connected, once. *)
Lemma bound_listening (st : State) : Bound st -> listening st.
Proof.
  induction 1 as [ st path e st' Hproxy Hrun
                 | st ev st' _ IH Hrun
                 | st path r st' _ IH Hrun
                 | st value r st' _ IH Hrun
                 | st k r st' _ IH Hrun
                 | st profile r st' _ IH Hrun
                 | st profile r st' _ IH Hrun
                 | st qualifier r st' _ IH Hrun ].
  - apply (bind_true_listening st path e st' Hproxy Hrun).
  - apply (deliver_keeps_listening ev st st' IH Hrun).
  - destruct IH as (p & Hp & Hh).
    rewrite (bind_guard st p path Hp) in Hrun. injection Hrun as _ <-.
    exists p. split; assumption.
  - apply (listening_same_proxy st st'); [| exact IH].
    destruct IH as (p & Hp & _). revert Hrun.
    unfold cd_device_set_model_sync, bind at 1, get_priv. rewrite Hp.
    intros Hrun. apply set_property_sync_frame in Hrun. rewrite Hrun. congruence.
  - apply (listening_same_proxy st st'); [| exact IH].
    destruct IH as (p & Hp & _). revert Hrun.
    unfold cd_device_set_kind_sync, bind at 1, get_priv. rewrite Hp.
    intros Hrun. apply set_property_sync_frame in Hrun. rewrite Hrun. congruence.
  - apply (listening_same_proxy st st'); [| exact IH].
    destruct IH as (p & Hp & _). revert Hrun.
    unfold cd_device_add_profile_sync, bind at 1, get_priv. rewrite Hp.
    intros Hrun. apply forward_frame in Hrun. rewrite Hrun. congruence.
  - apply (listening_same_proxy st st'); [| exact IH].
    destruct IH as (p & Hp & _). revert Hrun.
    unfold cd_device_make_profile_default_sync, bind at 1, get_priv. rewrite Hp.
    intros Hrun. apply forward_frame in Hrun. rewrite Hrun. congruence.
  - apply (listening_same_proxy st st'); [| exact IH].
    apply get_profile_for_qualifier_frame in Hrun. rewrite Hrun. reflexivity.
Qed.

(** *** What the profile list holds *)

(** The loop appends exactly the references the daemon resolved, in the
    order of the paths. *)
Lemma set_profiles_loop_exact (rest : list string) :
  forall (done : list string) (st : State) (res : bool * option GError)
         (st' : State),
    set_profiles_loop (object_paths (done ++ rest)) (length done) (length rest) st
      = Done (res, st') ->
    priv st'
    = set_profiles (profiles (priv st) ++ resolved_references (requests st) rest)
                   (priv st).
Proof.
  induction rest as [| path rest IH]; intros done st res st' Hrun.
  - cbn in Hrun. injection Hrun as _ <-. cbn [resolved_references].
    rewrite app_nil_r, set_profiles_same. reflexivity.
  - cbn [length set_profiles_loop resolved_references] in *.
    unfold bind at 1, within_contract in Hrun.
    rewrite get_child_object_paths in Hrun.
    unfold bind at 1, cd_profile_set_object_path_sync at 1 in Hrun.
    unfold bind at 1, send at 1 in Hrun. cbn [requests] in Hrun.
    destruct (reply_profile daemon (requests st) path) as [e | ident].
    + unfold ret in Hrun. injection Hrun as _ <-. cbn [priv].
      rewrite app_nil_r, set_profiles_same. reflexivity.
    + unfold ret at 1, bind at 1, modify_priv at 1 in Hrun.
      match type of Hrun with
      | set_profiles_loop _ _ _ ?s1 = _ => set (st1 := s1) in Hrun
      end.
      specialize (IH (done ++ [path])%list st1 res st').
      rewrite <- app_assoc, length_app in IH. cbn [app length] in IH.
      rewrite Nat.add_1_r in IH.
      rewrite (IH Hrun). subst st1. cbn [priv requests profiles set_profiles].
      rewrite <- app_assoc. reflexivity.
Qed.

Lemma set_profiles_array_exact (paths : list string) (st : State)
  (res : bool * option GError) (st' : State) :
  cd_device_set_profiles_array_from_variant (Some (object_paths paths)) st
    = Done (res, st') ->
  priv st' = set_profiles (resolved_references (requests st) paths) (priv st).
Proof.
  unfold cd_device_set_profiles_array_from_variant.
  unfold bind at 1, modify_priv at 1.
  unfold bind at 1, within_contract at 1.
  cbn [g_variant_iter_init object_paths]. rewrite length_map.
  unfold bind at 1, within_contract at 1.
  intros Hrun.
  apply (set_profiles_loop_exact paths []) in Hrun.
  rewrite Hrun. reflexivity.
Qed.

(** An entry for another attribute leaves the profile list, the request
    log and the emissions alone. *)
Lemma scalar_entry_run (name : string) (value : GVariant) (st : State) :
  scalar_entry (name, value) ->
  exists st1,
    properties_changed_entry name value st = Done (tt, st1)
    /\ profiles (priv st1) = profiles (priv st)
    /\ proxy (priv st1) = proxy (priv st)
    /\ object_path (priv st1) = object_path (priv st)
    /\ id (priv st1) = id (priv st)
    /\ created (priv st1) = created (priv st)
    /\ requests st1 = requests st
    /\ emitted st1 = emitted st
    /\ messages st1 = (messages st ++ unhandled_warning (name, value))%list.
Proof.
  intros (Hnot & Htyped). cbn [fst snd] in Hnot, Htyped.
  unfold properties_changed_entry, unhandled_warning. cbn [fst].
  destruct (g_strcmp0_eq name "Model") eqn:Hm.
  { apply String.eqb_eq in Hm. destruct (Htyped (or_introl Hm)) as (s & ->).
    unfold bind, within_contract, modify_priv.
    cbn [g_variant_dup_string g_variant_get_string].
    eexists. split; [reflexivity |]. cbn [priv requests emitted messages].
    rewrite app_nil_r. repeat split. }
  destruct (g_strcmp0_eq name "Kind") eqn:Hk.
  { apply String.eqb_eq in Hk. destruct (Htyped (or_intror Hk)) as (s & ->).
    unfold bind, within_contract, modify_priv. cbn [g_variant_get_string].
    eexists. split; [reflexivity |]. cbn [priv requests emitted messages].
    rewrite app_nil_r. repeat split. }
  destruct (g_strcmp0_eq name "Profiles") eqn:Hp.
  { apply String.eqb_eq in Hp. contradiction. }
  unfold log. eexists. split; [reflexivity |]. repeat split.
Qed.

Lemma scalar_entries_run (entries : list (string * GVariant))
  (invalidated : list string) :
  Forall scalar_entry entries ->
  forall st : State,
  exists st1,
    cd_device_dbus_properties_changed entries invalidated st = Done (tt, st1)
    /\ profiles (priv st1) = profiles (priv st)
    /\ proxy (priv st1) = proxy (priv st)
    /\ object_path (priv st1) = object_path (priv st)
    /\ id (priv st1) = id (priv st)
    /\ created (priv st1) = created (priv st)
    /\ requests st1 = requests st
    /\ emitted st1 = emitted st
    /\ messages st1 = (messages st ++ unhandled_warnings entries)%list.
Proof.
  induction 1 as [| [name value] rest Hentry _ IH]; intros st.
  - exists st. cbn. rewrite app_nil_r. repeat split.
  - destruct (scalar_entry_run name value st Hentry)
      as (st1 & Hrun & A1 & A2 & A3 & A4 & A5 & A6 & A7 & A8).
    destruct (IH st1) as (st2 & Hrun2 & B1 & B2 & B3 & B4 & B5 & B6 & B7 & B8).
    exists st2. cbn [cd_device_dbus_properties_changed].
    rewrite (bind_done _ _ _ _ _ Hrun).
    split; [exact Hrun2 |].
    rewrite B1, B2, B3, B4, B5, B6, B7, B8, A1, A2, A3, A4, A5, A6, A7, A8.
    unfold unhandled_warnings. cbn [flat_map]. rewrite <- app_assoc.
    repeat split.
Qed.

Lemma properties_changed_app (first second : list (string * GVariant))
  (invalidated : list string) :
  forall st : State,
    cd_device_dbus_properties_changed (first ++ second) invalidated st
    = bind (cd_device_dbus_properties_changed first invalidated)
           (fun _ => cd_device_dbus_properties_changed second invalidated) st.
Proof.
  induction first as [| [name value] rest IH]; intros st.
  - reflexivity.
  - cbn [app cd_device_dbus_properties_changed].
    unfold bind in *.
    destruct (properties_changed_entry name value st) as [[[] st1] |];
      [apply IH | reflexivity].
Qed.

(** The Profiles entry on its own: the list becomes what the daemon
    resolved, whatever it held. *)
Lemma profiles_entry_run (paths : list string) (st : State) :
  exists st2,
    properties_changed_entry "Profiles" (object_paths paths) st = Done (tt, st2)
    /\ priv st2 = set_profiles (resolved_references (requests st) paths) (priv st)
    /\ emitted st2 = emitted st
    /\ messages st2 = messages st
    /\ match first_failure (requests st) paths with
       | None =>
           map profile_object_path (resolved_references (requests st) paths)
           = map Some paths
           /\ requests st2 = (requests st ++ map ProfileSetObjectPath paths)%list
       | Some k =>
           k < length paths
           /\ map profile_object_path (resolved_references (requests st) paths)
              = map Some (firstn k paths)
           /\ requests st2
              = (requests st ++ map ProfileSetObjectPath (firstn (S k) paths))%list
       end.
Proof.
  destruct (set_profiles_array_spec paths st)
    as (res & new & st2 & Hrun & Hpriv & Hem & Hmsg & Hcase).
  pose proof (set_profiles_array_exact paths st res st2 Hrun) as Hexact.
  assert (Hnew : new = resolved_references (requests st) paths).
  { rewrite Hpriv in Hexact.
    apply (f_equal profiles) in Hexact. exact Hexact. }
  subst new. exists st2.
  unfold properties_changed_entry, g_strcmp0_eq.
  change (String.eqb "Profiles" "Model") with false.
  change (String.eqb "Profiles" "Kind") with false.
  change (String.eqb "Profiles" "Profiles") with true.
  cbn iota. rewrite (bind_done _ _ _ _ _ Hrun). unfold ret.
  split; [reflexivity |]. split; [exact Hpriv |].
  split; [exact Hem |]. split; [exact Hmsg |].
  destruct (first_failure (requests st) paths) as [k |].
  - destruct Hcase as (_ & Hk & Hmap & Hreq). repeat split; assumption.
  - destruct Hcase as (_ & Hmap & Hreq). split; assumption.
Qed.

(** ** The properties of the proxy *)

(** C1 (as amended).  On a bound device, take a properties-changed
    notification that carries a Profiles path list in which the path at
    position [k] is the first the daemon refuses to resolve, its other
    entries, before and after, being for other attributes (with string
    values for Model and Kind).  The old profile list is not retained:
    the handler empties the list and resolves the paths in order up to
    and including the refused one, so that after it runs the list is
    exactly the references the daemon resolved for the [k] paths that
    precede the refused one, in their order, whatever the list held
    before.  The refusal is reported nowhere: the handler returns
    nothing, emits nothing, and logs only the "property unhandled"
    warnings of the other entries; it leaves the proxy, the object path,
    the id and the creation time alone, and when the Profiles entry is
    the only one nothing but the profile list changes. *)
Theorem profiles_changed_keeps_resolved_prefix
  (st : State) (before after : list (string * GVariant))
  (paths invalidated : list string) (k : nat) :
  Bound st ->
  Forall scalar_entry before ->
  Forall scalar_entry after ->
  first_failure (requests st) paths = Some k ->
  exists st',
    deliver (GPropertiesChanged
               (before ++ ("Profiles", object_paths paths) :: after)
               invalidated) st
      = Done (tt, st')
    /\ cd_device_dbus_properties_changed
         (before ++ ("Profiles", object_paths paths) :: after) invalidated st
       = Done (tt, st')
    /\ profiles (priv st') = resolved_references (requests st) paths
    /\ map profile_object_path (profiles (priv st')) = map Some (firstn k paths)
    /\ length (profiles (priv st')) = k
    /\ k < length paths
    /\ requests st'
       = (requests st ++ map ProfileSetObjectPath (firstn (S k) paths))%list
    /\ same_identity (priv st) (priv st')
    /\ emitted st' = emitted st
    /\ messages st' = (messages st ++ unhandled_warnings (before ++ after))%list
    /\ (before = [] -> after = [] ->
        priv st' = set_profiles (profiles (priv st')) (priv st)
        /\ messages st' = messages st).
Proof.
  intros Hbound Hbefore Hafter Hfail.
  rewrite (deliver_listening _ _ (bound_listening st Hbound)).
  destruct (scalar_entries_run before invalidated Hbefore st)
    as (st1 & Hrun1 & A1 & A2 & A3 & A4 & A5 & A6 & A7 & A8).
  destruct (profiles_entry_run paths st1)
    as (st2 & Hrun2 & Hpriv2 & Hem2 & Hmsg2 & Hcase).
  rewrite A6, Hfail in Hcase. destruct Hcase as (Hk & Hmap & Hreq2).
  rewrite A6 in Hpriv2.
  destruct (scalar_entries_run after invalidated Hafter st2)
    as (st' & Hrun3 & B1 & B2 & B3 & B4 & B5 & B6 & B7 & B8).
  assert (Hrun : cd_device_dbus_properties_changed
                   (before ++ ("Profiles", object_paths paths) :: after)
                   invalidated st = Done (tt, st')).
  { rewrite properties_changed_app. rewrite (bind_done _ _ _ _ _ Hrun1).
    cbn [cd_device_dbus_properties_changed].
    rewrite (bind_done _ _ _ _ _ Hrun2). exact Hrun3. }
  exists st'. split; [exact Hrun |]. split; [exact Hrun |].
  assert (Hprofiles : profiles (priv st')
                      = resolved_references (requests st) paths).
  { rewrite B1, Hpriv2. reflexivity. }
  split; [exact Hprofiles |].
  split; [rewrite Hprofiles; exact Hmap |].
  split.
  { rewrite Hprofiles. apply (f_equal (@length _)) in Hmap.
    rewrite !length_map, firstn_length_le in Hmap by lia. exact Hmap. }
  split; [exact Hk |].
  split; [rewrite B6, Hreq2; reflexivity |].
  split.
  { unfold same_identity. rewrite B2, B3, B4, B5, Hpriv2.
    cbn [proxy object_path id created set_profiles].
    repeat split; assumption. }
  split; [rewrite B7, Hem2; exact A7 |].
  split.
  { rewrite B8, Hmsg2, A8. unfold unhandled_warnings.
    rewrite flat_map_app, <- app_assoc. reflexivity. }
  intros -> ->.
  cbn in Hrun1. injection Hrun1 as <-.
  cbn in Hrun3. injection Hrun3 as <-.
  split.
  - rewrite Hpriv2. reflexivity.
  - rewrite Hmsg2. reflexivity.
Qed.

(** C2.  Binding a device that already has a proxy fails: the call
    returns FALSE through its [proxy == NULL] guard, sets no GError, makes
    no request to the bus, emits nothing, and leaves the proxy and every
    field of the private data as they were. *)
Theorem rebind_rejected (st : State) (p : GDBusProxy) (path : string) :
  proxy (priv st) = Some p ->
  exists st',
    cd_device_set_object_path_sync path st = Done ((false, None), st')
    /\ priv st' = priv st
    /\ requests st' = requests st
    /\ emitted st' = emitted st
    /\ messages st'
       = (messages st ++ [LogCritical "cd_device_set_object_path_sync"
                                      "device->priv->proxy == NULL"])%list.
Proof.
  intros Hp. rewrite (bind_guard st p path Hp).
  eexists. repeat split.
Qed.

(** C7.  On a bound device, a properties-changed notification whose
    change set is the single entry Model = X (a string) runs the
    properties handler, which stores X in the model field and leaves the
    proxy, the object path, the id, the creation time, the profile list
    and the kind as they were; no request is made and nothing is
    emitted. *)
Theorem model_changed_updates_model_only
  (st : State) (X : string) (invalidated : list string) :
  Bound st ->
  exists st',
    deliver (GPropertiesChanged [("Model", GVString X)] invalidated) st
      = Done (tt, st')
    /\ cd_device_dbus_properties_changed [("Model", GVString X)] invalidated st
       = Done (tt, st')
    /\ model (priv st') = Some X
    /\ kind (priv st') = kind (priv st)
    /\ id (priv st') = id (priv st)
    /\ created (priv st') = created (priv st)
    /\ profiles (priv st') = profiles (priv st)
    /\ object_path (priv st') = object_path (priv st)
    /\ proxy (priv st') = proxy (priv st)
    /\ requests st' = requests st
    /\ emitted st' = emitted st.
Proof.
  intros Hbound. rewrite (deliver_listening _ _ (bound_listening st Hbound)).
  cbn [cd_device_dbus_properties_changed].
  unfold properties_changed_entry, g_strcmp0_eq.
  change (String.eqb "Model" "Model") with true. cbn iota.
  unfold bind, within_contract, modify_priv, ret. cbn [g_variant_dup_string g_variant_get_string].
  eexists. repeat split.
Qed.

(** C8.  On a bound device, whatever the sequence of "Changed"
    signals arriving from the bus, after the first [n] of them have been
    delivered exactly [n] payload-free "changed" notifications have been
    emitted to the observers, for every [n] up to the length of the
    sequence: each delivery emits its own notification before the next
    signal is handled, and two deliveries are never merged. *)
Theorem changed_signals_reemitted_one_by_one
  (st : State) (evs : list ProxyEvent) (n : nat) :
  Bound st ->
  Forall is_changed evs ->
  n <= length evs ->
  exists st',
    deliver_all (firstn n evs) st = Done (tt, st')
    /\ emitted st' = (emitted st ++ repeat SIGNAL_CHANGED n)%list
    /\ priv st' = priv st
    /\ requests st' = requests st.
Proof.
  intros Hbound Hall Hn.
  destruct (deliver_all_changed (firstn n evs) st (bound_listening st Hbound)
              (Forall_prefix _ n _ Hall))
    as (st' & Hrun & Hpriv & Hreq & Hem).
  rewrite firstn_length_le in Hem by exact Hn.
  exists st'. repeat split; assumption.
Qed.

(** C3.  Binding an unbound device to [path], when the connection
    succeeds with a cached property set that supplies DeviceId, Kind,
    Model, Created and a Profiles path list every path of which resolves,
    returns TRUE and leaves the id, the model and the creation time equal
    to the supplied values, the kind equal to the supplied string
    converted by cd_device_kind_from_string, as many profiles as paths
    supplied, and the object path equal to [path]; the device then
    listens on its proxy. *)
Theorem bind_mirrors_initial_properties
  (st : State) (path : string) (cache : list (string * GVariant))
  (device_id kind_name model_name : string) (created_at : N)
  (paths : list string) :
  proxy (priv st) = None ->
  reply_proxy_new daemon (requests st) COLORD_DBUS_SERVICE path
                  COLORD_DBUS_INTERFACE_DEVICE = inr cache ->
  lookup_property cache "DeviceId" = Some (GVString device_id) ->
  lookup_property cache "Kind" = Some (GVString kind_name) ->
  lookup_property cache "Model" = Some (GVString model_name) ->
  lookup_property cache "Created" = Some (GVUint64 created_at) ->
  (created_at < guint64_modulus)%N ->
  lookup_property cache "Profiles" = Some (object_paths paths) ->
  first_failure (requests st ++ [ProxyNewForBus COLORD_DBUS_SERVICE path
                                   COLORD_DBUS_INTERFACE_DEVICE])%list paths
    = None ->
  exists st',
    cd_device_set_object_path_sync path st = Done ((true, None), st')
    /\ cd_device_get_id st' = Some device_id
    /\ cd_device_get_model st' = Some model_name
    /\ cd_device_get_kind st' = cd_device_kind_from_string kind_name
    /\ cd_device_get_created st' = created_at
    /\ length (cd_device_get_profiles st') = length paths
    /\ cd_device_get_object_path st' = Some path
    /\ listening st'.
Proof.
  intros Hproxy Hreply Hid Hkind Hmodel Hcreated Hrange Hprofiles Hall.
  destruct (bind_connected st path cache paths Hproxy Hreply) as
    (res & new & st' & Hrun & _ & Hnew & Hcase).
  - rewrite Hid. exists device_id. reflexivity.
  - rewrite Hkind. exists kind_name. reflexivity.
  - rewrite Hmodel. exists model_name. reflexivity.
  - rewrite Hcreated. exists created_at. split; [reflexivity | exact Hrange].
  - exact Hprofiles.
  - rewrite Hall in Hnew, Hcase. destruct Hcase as (-> & Hpriv).
    exists st'. split; [exact Hrun |].
    unfold cd_device_get_id, cd_device_get_model, cd_device_get_kind,
      cd_device_get_created, cd_device_get_profiles, cd_device_get_object_path,
      listening.
    rewrite Hpriv. unfold after_scalar_reads.
    rewrite Hid, Hkind, Hmodel, Hcreated.
    cbn [stored g_variant_dup_string g_variant_get_string g_variant_get_uint64
         set_proxy set_profiles set_created set_model set_kind set_id
         set_object_path id model kind created profiles object_path proxy].
    repeat split.
    + apply N.mod_small, Hrange.
    + apply (f_equal (@length _)) in Hnew. rewrite !length_map in Hnew.
      exact Hnew.
    + eexists. split; reflexivity.
Qed.

(** C4.  On a device that has a proxy, set_model, set_kind, add_profile
    and make_profile_default each send one request to the daemon and
    return TRUE or FALSE as the daemon answers; whichever the answer, the
    private data (proxy, object path, id, model, created, profile list,
    kind) is left exactly as it was and nothing is emitted. *)
Theorem remote_requests_leave_snapshot (st : State) (p : GDBusProxy) :
  proxy (priv st) = Some p ->
  (forall value : option string,
      fire_and_forget (cd_device_set_model_sync value) p "SetProperty"
                      (g_variant_new_ss (Some "Model") value) st)
  /\ (forall k : CdDeviceKind,
        fire_and_forget (cd_device_set_kind_sync k) p "SetProperty"
                        (g_variant_new_ss (Some "Kind")
                                          (cd_device_kind_to_string k)) st)
  /\ (forall profile : CdProfile,
        fire_and_forget (cd_device_add_profile_sync profile) p "AddProfile"
                        (g_variant_new_o (cd_profile_get_object_path profile)) st)
  /\ (forall profile : CdProfile,
        fire_and_forget (cd_device_make_profile_default_sync profile) p
                        "MakeProfileDefault"
                        (g_variant_new_s (cd_profile_get_id profile)) st).
Proof.
  intros Hp.
  assert (Hcall : forall (method : string) (parameters : option GVariant)
                         (text : string),
             fire_and_forget
               (fun s =>
                  bind (g_dbus_proxy_call_sync (Some p) method parameters)
                       (fun response =>
                          match response with
                          | inl error_local =>
                              ret (false, g_set_error (text ++ message error_local))
                          | inr _ => ret (true, None)
                          end) s)
               p method parameters st).
  { intros method [a |] text; unfold fire_and_forget.
    - rewrite (bind_done _ _ _ _ _ (call_sync_run p method a st)).
      destruct (reply_call daemon (requests st) (g_object_path p) method a)
        as [e | v]; unfold ret; eexists _, _; (split; [reflexivity |]);
        cbn [fst priv requests emitted]; repeat split; try discriminate.
      + intros (v & Hv). discriminate Hv.
      + intros _. exists v. reflexivity.
    - reflexivity. }
  assert (Hset : forall (name : string) (value : option string),
             cd_device_set_property_sync name value st
             = bind (g_dbus_proxy_call_sync (Some p) "SetProperty"
                       (g_variant_new_ss (Some name) value))
                    (fun response =>
                       match response with
                       | inl error_local =>
                           ret (false,
                                g_set_error ("Failed to set profile object path: "
                                             ++ message error_local))
                       | inr _ => ret (true, None)
                       end) st).
  { intros name value.
    unfold cd_device_set_property_sync, bind at 1, get_priv. rewrite Hp.
    reflexivity. }
  repeat split; intros.
  - assert (Heq : cd_device_set_model_sync value st
                  = cd_device_set_property_sync "Model" value st).
    { unfold cd_device_set_model_sync, bind at 1, get_priv. rewrite Hp.
      reflexivity. }
    unfold fire_and_forget. rewrite Heq, Hset. apply Hcall.
  - assert (Heq : cd_device_set_kind_sync k st
                  = cd_device_set_property_sync
                      "Kind" (cd_device_kind_to_string k) st).
    { unfold cd_device_set_kind_sync, bind at 1, get_priv. rewrite Hp.
      reflexivity. }
    unfold fire_and_forget. rewrite Heq, Hset. apply Hcall.
  - assert (Heq : cd_device_add_profile_sync profile st
                  = bind (g_dbus_proxy_call_sync (Some p) "AddProfile"
                            (g_variant_new_o (cd_profile_get_object_path profile)))
                         (fun response =>
                            match response with
                            | inl error_local =>
                                ret (false,
                                     g_set_error ("Failed to add profile to device: "
                                                  ++ message error_local))
                            | inr _ => ret (true, None)
                            end) st).
    { unfold cd_device_add_profile_sync, bind at 1, get_priv. rewrite Hp.
      reflexivity. }
    unfold fire_and_forget. rewrite Heq. apply Hcall.
  - assert (Heq : cd_device_make_profile_default_sync profile st
                  = bind (g_dbus_proxy_call_sync (Some p) "MakeProfileDefault"
                            (g_variant_new_s (cd_profile_get_id profile)))
                         (fun response =>
                            match response with
                            | inl error_local =>
                                ret (false,
                                     g_set_error
                                       ("Failed to make profile default on device: "
                                        ++ message error_local))
                            | inr _ => ret (true, None)
                            end) st).
    { unfold cd_device_make_profile_default_sync, bind at 1, get_priv.
      rewrite Hp. reflexivity. }
    unfold fire_and_forget. rewrite Heq. apply Hcall.
Qed.

(** C5 (as amended).  cd_device_get_profile_for_qualifier_sync is
    guarded on a non-NULL qualifier and on a proxy: called with a NULL
    qualifier, or on a device that has no proxy, it returns NULL with no
    GError and sends nothing to the bus.  The guard is on NULL only; an
    empty string is a qualifier like any other. *)
Theorem qualifier_lookup_guards (st : State) (qualifier : option string) :
  qualifier = None \/ proxy (priv st) = None ->
  exists st',
    cd_device_get_profile_for_qualifier_sync qualifier st
      = Done ((None, None), st')
    /\ requests st' = requests st
    /\ priv st' = priv st
    /\ emitted st' = emitted st.
Proof.
  intros H. unfold cd_device_get_profile_for_qualifier_sync.
  destruct qualifier as [q |].
  - destruct H as [H | H]; [discriminate |].
    unfold bind at 1, get_priv. rewrite H.
    unfold bind, g_return_if_fail_warning, log, ret.
    eexists. repeat split.
  - unfold bind, g_return_if_fail_warning, log, ret.
    eexists. repeat split.
Qed.

(** C6.  On a device that has a proxy, when the daemon answers
    GetProfileForQualifier (qualifier) with the object path [path] and
    then resolves [path], the call returns a profile whose object path is
    [path].  The cached profile list takes no part: it is left as it was,
    and the same profile comes back whatever list the device holds. *)
Theorem qualifier_lookup_returns_resolved_path
  (st : State) (p : GDBusProxy) (qualifier path : string)
  (ident : option string) :
  proxy (priv st) = Some p ->
  reply_call daemon (requests st) (g_object_path p) "GetProfileForQualifier"
             (GVTuple [GVString qualifier])
    = inr (GVTuple [GVObjectPath path]) ->
  reply_profile daemon
                (requests st
                 ++ [ProxyCall (g_object_path p) "GetProfileForQualifier"
                               (GVTuple [GVString qualifier])])%list
                path
    = inr ident ->
  exists profile st',
    cd_device_get_profile_for_qualifier_sync (Some qualifier) st
      = Done ((Some profile, None), st')
    /\ cd_profile_get_object_path profile = Some path
    /\ priv st' = priv st
    /\ forall cached : list CdProfile,
         exists st'',
           cd_device_get_profile_for_qualifier_sync
             (Some qualifier) (with_profiles cached st)
             = Done ((Some profile, None), st'')
           /\ cd_device_get_profiles st'' = cached.
Proof.
  intros Hp Hcall Hprofile.
  assert (Hrun : forall s : State,
             proxy (priv s) = Some p ->
             requests s = requests st ->
             cd_device_get_profile_for_qualifier_sync (Some qualifier) s
             = Done ((Some {| profile_object_path := Some path;
                              profile_id := ident |}, None),
                     {| priv := priv s;
                        requests :=
                          (requests st
                           ++ [ProxyCall (g_object_path p) "GetProfileForQualifier"
                                         (GVTuple [GVString qualifier])])
                          ++ [ProfileSetObjectPath path];
                        emitted := emitted s; messages := messages s |})).
  { intros s Hs Hreq.
    unfold cd_device_get_profile_for_qualifier_sync.
    unfold bind at 1, get_priv. rewrite Hs.
    cbn [g_variant_new_s option_map].
    rewrite (bind_done _ _ _ _ _ (call_sync_run p _ _ s)).
    rewrite Hreq, Hcall.
    unfold bind at 1, within_contract. cbn [g_variant_get_o].
    unfold bind at 1, cd_profile_set_object_path_sync.
    unfold bind at 1, send. cbn [requests]. rewrite Hprofile.
    reflexivity. }
  eexists _, _. split; [apply Hrun; [exact Hp | reflexivity] |].
  split; [reflexivity |]. split; [reflexivity |].
  intros cached. eexists. split.
  - apply Hrun; [exact Hp | reflexivity].
  - reflexivity.
Qed.

(** C9.  cd_device_init leaves a NULL id, the Unknown kind, a NULL model
    and a zero creation time.  In a bind whose connection succeeds, each
    of DeviceId, Kind, Model and Created is read behind a NULL test: when
    the proxy has no cached value for one of them the field keeps the
    value it had before the bind (the default above, on a freshly
    initialised device) and the bind still returns TRUE, provided the
    profile list resolves.  Profiles is read with no such test: when the
    proxy has no cached Profiles the NULL variant goes straight to
    g_variant_iter_init. *)
Theorem absent_scalars_keep_defaults
  (st : State) (path : string) (cache : list (string * GVariant)) :
  proxy (priv st) = None ->
  reply_proxy_new daemon (requests st) COLORD_DBUS_SERVICE path
                  COLORD_DBUS_INTERFACE_DEVICE = inr cache ->
  absent_or is_string (lookup_property cache "DeviceId") ->
  absent_or is_string (lookup_property cache "Kind") ->
  absent_or is_string (lookup_property cache "Model") ->
  absent_or is_uint64 (lookup_property cache "Created") ->
  (id cd_device_init = None
   /\ kind cd_device_init = CD_DEVICE_KIND_UNKNOWN
   /\ model cd_device_init = None
   /\ created cd_device_init = 0%N)
  /\ (forall paths : list string,
        lookup_property cache "Profiles" = Some (object_paths paths) ->
        first_failure (requests st ++ [ProxyNewForBus COLORD_DBUS_SERVICE path
                                         COLORD_DBUS_INTERFACE_DEVICE])%list paths
          = None ->
        exists st',
          cd_device_set_object_path_sync path st = Done ((true, None), st')
          /\ (lookup_property cache "DeviceId" = None ->
              id (priv st') = id (priv st))
          /\ (lookup_property cache "Kind" = None ->
              kind (priv st') = kind (priv st))
          /\ (lookup_property cache "Model" = None ->
              model (priv st') = model (priv st))
          /\ (lookup_property cache "Created" = None ->
              created (priv st') = created (priv st)))
  /\ (lookup_property cache "Profiles" = None ->
      cd_device_set_object_path_sync path st = GLibFault).
Proof.
  intros Hproxy Hreply Hid Hkind Hmodel Hcreated.
  split; [repeat split |]. split.
  - intros paths Hprofiles Hall.
    destruct (bind_connected st path cache paths Hproxy Hreply
                Hid Hkind Hmodel Hcreated Hprofiles)
      as (res & new & st' & Hrun & _ & _ & Hcase).
    rewrite Hall in Hcase. destruct Hcase as (-> & Hpriv).
    exists st'. split; [exact Hrun |].
    rewrite Hpriv. unfold after_scalar_reads.
    cbn [set_proxy set_profiles id kind model created].
    repeat split; intros Habsent; rewrite Habsent;
      repeat first [ rewrite (stored_frame id) by reflexivity
                   | rewrite (stored_frame kind) by reflexivity
                   | rewrite (stored_frame model) by reflexivity
                   | rewrite (stored_frame created) by reflexivity
                   | progress cbn [stored] ];
      reflexivity.
  - intros Habsent.
    unfold cd_device_set_object_path_sync.
    unfold bind at 1, get_priv. rewrite Hproxy.
    unfold bind at 1, g_dbus_proxy_new_for_bus_sync.
    unfold bind at 1, send. rewrite Hreply. unfold ret at 1.
    unfold bind at 1, modify_priv at 1.
    unfold bind at 1, modify_priv at 1.
    unfold g_dbus_proxy_get_cached_property. cbn [cached_properties].
    rewrite (bind_done _ _ _ _ _
               (read_cached_spec _ _ _ _ (is_string_decodes _ Hid))).
    rewrite (bind_done _ _ _ _ _
               (read_cached_spec _ _ _ _ (is_string_decodes _ Hkind))).
    rewrite (bind_done _ _ _ _ _
               (read_cached_spec _ _ _ _ (is_string_decodes _ Hmodel))).
    rewrite (bind_done _ _ _ _ _
               (read_cached_spec _ _ _ _ (is_uint64_decodes _ Hcreated))).
    rewrite Habsent. apply bind_fault. reflexivity.
Qed.

(** C10.  When the bind of an unbound device returns FALSE although the
    connection was made (the device now has a proxy), no handler is
    connected to that proxy.  From then on, whatever sequence of signals
    and properties-changed notifications the bus delivers, the whole
    state stays as the failed bind left it (private data, emissions to
    the observers, requests, log); and a further bind cannot connect the
    handlers either, since it is rejected. *)
Theorem failed_bind_never_listens
  (st : State) (path : string) (res : bool * option GError) (st' : State) :
  proxy (priv st) = None ->
  cd_device_set_object_path_sync path st = Done (res, st') ->
  fst res = false ->
  proxy (priv st') <> None ->
  (exists p, proxy (priv st') = Some p /\ handlers p = [])
  /\ (forall evs : list ProxyEvent, deliver_all evs st' = Done (tt, st'))
  /\ (forall path' : string,
        exists st'',
          cd_device_set_object_path_sync path' st' = Done ((false, None), st'')
          /\ priv st'' = priv st').
Proof.
  intros Hproxy Hrun Hres Hconn.
  assert (Hh : exists p, proxy (priv st') = Some p /\ handlers p = []).
  { revert Hrun. unfold cd_device_set_object_path_sync.
    unfold bind at 1, get_priv. rewrite Hproxy.
    unfold bind at 1, g_dbus_proxy_new_for_bus_sync.
    unfold bind at 1, send.
    destruct (reply_proxy_new daemon (requests st) COLORD_DBUS_SERVICE path
                COLORD_DBUS_INTERFACE_DEVICE) as [e | cache].
    - unfold ret. intros H. injection H as _ <-.
      cbn [priv] in Hconn. contradiction.
    - unfold ret at 1.
      unfold bind at 1, modify_priv at 1.
      unfold bind at 1, modify_priv at 1.
      unfold g_dbus_proxy_get_cached_property. cbn [cached_properties].
      cbn [priv requests emitted messages].
      repeat match goal with
             | |- bind (read_cached ?v ?d ?s) ?k ?s0 = _ -> _ =>
                 destruct (read_cached_cases v d s s0) as [Hf | Hd];
                 [ rewrite (bind_fault _ _ _ Hf); discriminate
                 | rewrite (bind_done _ _ _ _ _ Hd); clear Hd ]
             end.
      cbn [priv requests emitted messages].
      match goal with
      | |- bind ?c _ ?s0 = _ -> _ => destruct (c s0) as [[res5 st5] |] eqn:Hset
      end.
      + rewrite (bind_done _ _ _ _ _ Hset).
        apply set_profiles_array_frame in Hset.
        destruct Hset as (new & Hpriv & _). cbn [priv] in Hpriv.
        destruct (fst res5) eqn:Hfst.
        * unfold bind, g_signal_connect, modify_priv, get_priv, log, ret.
          intros H. injection H as <- _. discriminate Hres.
        * unfold ret. intros H. injection H as _ <-.
          eexists. rewrite Hpriv. cbn [proxy set_profiles].
          rewrite !(stored_frame proxy) by reflexivity.
          cbn [proxy set_object_path set_proxy]. split; reflexivity.
      + rewrite (bind_fault _ _ _ Hset). discriminate. }
  split; [exact Hh |].
  destruct Hh as (p & Hp & Hnone).
  split.
  - intros evs. apply (deliver_all_unconnected evs st' p Hp Hnone).
  - intros path'. rewrite (bind_guard st' p path' Hp).
    eexists. split; reflexivity.
Qed.

(** ** Further properties of the code *)

(** *** Auxiliary facts *)

Lemma bind_assoc {A B C : Type} (c : Action A) (k : A -> Action B)
  (k' : B -> Action C) (st : State) :
  bind (bind c k) k' st = bind c (fun a => bind (k a) k') st.
Proof. unfold bind. destruct (c st) as [[a st1] |]; reflexivity. Qed.

Lemma bind_ext {A B : Type} (c : Action A) (k k' : A -> Action B) (st : State) :
  (forall a s, k a s = k' a s) -> bind c k st = bind c k' st.
Proof.
  intros H. unfold bind. destruct (c st) as [[a st1] |]; [apply H | reflexivity].
Qed.

(** The bind of an unbound device, once the connection is made and the
    scalar attributes are read. *)
Lemma bind_after_connect (st : State) (path : string)
  (cache : list (string * GVariant)) :
  proxy (priv st) = None ->
  reply_proxy_new daemon (requests st) COLORD_DBUS_SERVICE path
                  COLORD_DBUS_INTERFACE_DEVICE = inr cache ->
  absent_or is_string (lookup_property cache "DeviceId") ->
  absent_or is_string (lookup_property cache "Kind") ->
  absent_or is_string (lookup_property cache "Model") ->
  absent_or is_uint64 (lookup_property cache "Created") ->
  cd_device_set_object_path_sync path st
  = bind (cd_device_set_profiles_array_from_variant
            (lookup_property cache "Profiles"))
         finish_bind
         {| priv := after_scalar_reads path cache (priv st);
            requests := requests st
                        ++ [ProxyNewForBus COLORD_DBUS_SERVICE path
                                           COLORD_DBUS_INTERFACE_DEVICE];
            emitted := emitted st; messages := messages st |}.
Proof.
  intros Hproxy Hreply Hid Hkind Hmodel Hcreated.
  unfold cd_device_set_object_path_sync.
  unfold bind at 1, get_priv. rewrite Hproxy.
  unfold bind at 1, g_dbus_proxy_new_for_bus_sync.
  unfold bind at 1, send. rewrite Hreply. unfold ret at 1.
  unfold bind at 1, modify_priv at 1.
  unfold bind at 1, modify_priv at 1.
  cbn [priv requests emitted messages].
  unfold g_dbus_proxy_get_cached_property. cbn [cached_properties].
  rewrite (bind_done _ _ _ _ _
             (read_cached_spec _ _ _ _ (is_string_decodes _ Hid))).
  rewrite (bind_done _ _ _ _ _
             (read_cached_spec _ _ _ _ (is_string_decodes _ Hkind))).
  rewrite (bind_done _ _ _ _ _
             (read_cached_spec _ _ _ _ (is_string_decodes _ Hmodel))).
  rewrite (bind_done _ _ _ _ _
             (read_cached_spec _ _ _ _ (is_uint64_decodes _ Hcreated))).
  reflexivity.
Qed.

(** The error the loop reports is the refusal of the first path that
    does not resolve, behind the loop's own prefix. *)
Lemma set_profiles_loop_error (rest : list string) :
  forall (done : list string) (st : State) (k : nat)
         (res : bool * option GError) (st' : State),
    first_failure (requests st) rest = Some k ->
    set_profiles_loop (object_paths (done ++ rest)) (length done) (length rest) st
      = Done (res, st') ->
    exists e bad,
      nth_error rest k = Some bad
      /\ reply_profile daemon
           (requests st ++ map ProfileSetObjectPath (firstn k rest))%list bad
         = inl e
      /\ res = (false,
                g_set_error ("Failed to set profile object path: " ++ message e)).
Proof.
  induction rest as [| path rest IH]; intros done st k res st' Hfail Hrun.
  - discriminate Hfail.
  - cbn [length set_profiles_loop first_failure] in Hfail, Hrun.
    unfold bind at 1, within_contract in Hrun.
    rewrite get_child_object_paths in Hrun.
    unfold bind at 1, cd_profile_set_object_path_sync at 1 in Hrun.
    unfold bind at 1, send at 1 in Hrun. cbn [requests] in Hrun.
    destruct (reply_profile daemon (requests st) path) as [e | ident] eqn:Hreply.
    + injection Hfail as <-. unfold ret in Hrun. injection Hrun as <- _.
      exists e, path. cbn [firstn map nth_error]. rewrite app_nil_r.
      repeat split. exact Hreply.
    + destruct (first_failure (requests st ++ [ProfileSetObjectPath path])%list rest)
        as [k' |] eqn:Hrest; [| discriminate Hfail].
      injection Hfail as <-.
      unfold ret at 1, bind at 1, modify_priv at 1 in Hrun.
      match type of Hrun with
      | set_profiles_loop _ _ _ ?s1 = _ => set (st1 := s1) in Hrun
      end.
      specialize (IH (done ++ [path])%list st1 k' res st').
      rewrite <- app_assoc, length_app in IH. cbn [app length] in IH.
      rewrite Nat.add_1_r in IH.
      destruct (IH Hrest Hrun) as (e & bad & Hnth & Hbad & Hres).
      exists e, bad. cbn [firstn map nth_error].
      subst st1. cbn [requests] in Hbad. rewrite <- app_assoc in Hbad.
      repeat split; assumption.
Qed.

Lemma set_profiles_array_error (paths : list string) (st : State) (k : nat)
  (res : bool * option GError) (st' : State) :
  first_failure (requests st) paths = Some k ->
  cd_device_set_profiles_array_from_variant (Some (object_paths paths)) st
    = Done (res, st') ->
  exists e bad,
    nth_error paths k = Some bad
    /\ reply_profile daemon
         (requests st ++ map ProfileSetObjectPath (firstn k paths))%list bad
       = inl e
    /\ res = (false,
              g_set_error ("Failed to set profile object path: " ++ message e)).
Proof.
  intros Hfail.
  unfold cd_device_set_profiles_array_from_variant.
  unfold bind at 1, modify_priv at 1.
  unfold bind at 1, within_contract at 1.
  cbn [g_variant_iter_init object_paths]. rewrite length_map.
  unfold bind at 1, within_contract at 1.
  intros Hrun.
  apply (set_profiles_loop_error paths []
           {| priv := set_profiles [] (priv st); requests := requests st;
              emitted := emitted st; messages := messages st |} k res st');
    [exact Hfail | exact Hrun].
Qed.

(** Neither callback writes the proxy, the object path, the id or the
    creation time, and the properties handler emits nothing. *)
Lemma properties_changed_frame (changed : list (string * GVariant))
  (invalidated : list string) :
  forall st st' : State,
    cd_device_dbus_properties_changed changed invalidated st = Done (tt, st') ->
    same_identity (priv st) (priv st') /\ emitted st' = emitted st.
Proof.
  induction changed as [| [name value] rest IH]; intros st st' Hrun.
  - injection Hrun as <-. repeat split.
  - cbn [cd_device_dbus_properties_changed] in Hrun.
    unfold bind at 1 in Hrun.
    destruct (properties_changed_entry name value st) as [[[] st1] |] eqn:Hentry;
      [| discriminate].
    apply IH in Hrun. destruct Hrun as ((H1 & H2 & H3 & H4) & Hem).
    assert (Hstep : same_identity (priv st) (priv st1)
                    /\ emitted st1 = emitted st).
    { clear - Hentry. unfold properties_changed_entry in Hentry.
      destruct (g_strcmp0_eq name "Model").
      { unfold bind, within_contract, modify_priv in Hentry.
        destruct (g_variant_dup_string value); [| discriminate].
        injection Hentry as <-. repeat split. }
      destruct (g_strcmp0_eq name "Kind").
      { unfold bind, within_contract, modify_priv in Hentry.
        destruct (g_variant_get_string value); [| discriminate].
        injection Hentry as <-. repeat split. }
      destruct (g_strcmp0_eq name "Profiles").
      { unfold bind at 1 in Hentry.
        destruct (cd_device_set_profiles_array_from_variant (Some value) st)
          as [[res st2] |] eqn:Hset; [| discriminate].
        injection Hentry as <-.
        apply set_profiles_array_frame in Hset.
        destruct Hset as (new & Hpriv & Hem). rewrite Hpriv.
        repeat split. exact Hem. }
      unfold log in Hentry. injection Hentry as <-. repeat split. }
    destruct Hstep as ((G1 & G2 & G3 & G4) & Gem).
    unfold same_identity. rewrite H1, H2, H3, H4, Hem.
    repeat split; assumption.
Qed.

Lemma signal_cb_run (sender_name signal_name : string) (parameters : GVariant)
  (st : State) :
  cd_device_dbus_signal_cb sender_name signal_name parameters st
  = Done (tt,
          if g_strcmp0_eq signal_name "Changed"
          then {| priv := priv st; requests := requests st;
                  emitted := emitted st ++ [SIGNAL_CHANGED];
                  messages := messages st
                              ++ [LogDebug ("emit Changed on "
                                            ++ fmt_s (object_path (priv st)))] |}
          else {| priv := priv st; requests := requests st;
                  emitted := emitted st;
                  messages := messages st
                              ++ [LogWarning ("unhandled signal '"
                                              ++ signal_name ++ "'")] |}).
Proof.
  unfold cd_device_dbus_signal_cb.
  destruct (g_strcmp0_eq signal_name "Changed"); reflexivity.
Qed.

Lemma invoke_frame (cb : Callback) (ev : ProxyEvent) (st st' : State) :
  invoke cb ev st = Done (tt, st') -> same_identity (priv st) (priv st').
Proof.
  destruct cb, ev; cbn [invoke]; intros Hrun;
    try (injection Hrun as <-; repeat split).
  - rewrite signal_cb_run in Hrun. injection Hrun as <-.
    destruct (g_strcmp0_eq signal_name "Changed"); repeat split.
  - apply properties_changed_frame in Hrun. apply Hrun.
Qed.

Lemma same_identity_trans (d1 d2 d3 : CdDevicePrivate) :
  same_identity d1 d2 -> same_identity d2 d3 -> same_identity d1 d3.
Proof.
  unfold same_identity. intros (A1 & A2 & A3 & A4) (B1 & B2 & B3 & B4).
  rewrite B1, B2, B3, B4. repeat split; assumption.
Qed.

Lemma run_handlers_frame (hs : list (string * Callback)) (ev : ProxyEvent) :
  forall st st' : State,
    run_handlers hs ev st = Done (tt, st') -> same_identity (priv st) (priv st').
Proof.
  induction hs as [| [detailed cb] rest IH]; intros st st' Hrun.
  - injection Hrun as <-. repeat split.
  - cbn [run_handlers] in Hrun. unfold bind at 1 in Hrun.
    destruct (String.eqb detailed (detailed_signal_of ev)).
    + destruct (invoke cb ev st) as [[[] st1] |] eqn:Hinv; [| discriminate].
      apply invoke_frame in Hinv. apply IH in Hrun.
      apply (same_identity_trans _ _ _ Hinv Hrun).
    + unfold ret in Hrun. apply IH in Hrun. exact Hrun.
Qed.

Lemma deliver_frame (ev : ProxyEvent) (st st' : State) :
  deliver ev st = Done (tt, st') -> same_identity (priv st) (priv st').
Proof.
  unfold deliver, bind at 1, get_priv.
  destruct (proxy (priv st)) as [p |].
  - apply run_handlers_frame.
  - intros H. injection H as <-. repeat split.
Qed.

Lemma consistent_same (st st' : State) :
  proxy (priv st') = proxy (priv st) ->
  object_path (priv st') = object_path (priv st) ->
  consistent st -> consistent st'.
Proof.
  intros Hp Ho (p & H1 & H2 & H3 & H4 & H5).
  exists p. rewrite Hp, Ho. repeat split; assumption.
Qed.

Lemma consistent_proxy (st : State) :
  consistent st -> exists p, proxy (priv st) = Some p.
Proof. intros (p & Hp & _). exists p. exact Hp. Qed.

(** A bind that returns TRUE leaves a fresh proxy for [path] with both
    handlers, and [path] as the object path. *)
Lemma bind_true_consistent (st : State) (path : string) (e : option GError)
  (st' : State) :
  proxy (priv st) = None ->
  cd_device_set_object_path_sync path st = Done ((true, e), st') ->
  consistent st'.
Proof.
  intros Hproxy. unfold cd_device_set_object_path_sync.
  unfold bind at 1, get_priv. rewrite Hproxy.
  unfold bind at 1, g_dbus_proxy_new_for_bus_sync.
  unfold bind at 1, send.
  destruct (reply_proxy_new daemon (requests st) COLORD_DBUS_SERVICE path
              COLORD_DBUS_INTERFACE_DEVICE) as [err | cache].
  - unfold ret. discriminate.
  - unfold ret at 1.
    unfold bind at 1, modify_priv at 1.
    unfold bind at 1, modify_priv at 1.
    unfold g_dbus_proxy_get_cached_property. cbn [cached_properties].
    cbn [priv requests emitted messages].
    repeat match goal with
           | |- bind (read_cached ?v ?d ?s) ?k ?s0 = _ -> _ =>
               destruct (read_cached_cases v d s s0) as [Hf | Hd];
               [ rewrite (bind_fault _ _ _ Hf); discriminate
               | rewrite (bind_done _ _ _ _ _ Hd); clear Hd ]
           end.
    cbn [priv requests emitted messages].
    match goal with
    | |- bind ?c _ ?s0 = _ -> _ => destruct (c s0) as [[res5 st5] |] eqn:Hset
    end.
    + rewrite (bind_done _ _ _ _ _ Hset).
      apply set_profiles_array_frame in Hset.
      destruct Hset as (new & Hpriv & _). cbn [priv] in Hpriv.
      assert (Hp5 : proxy (priv st5) = Some (fresh_proxy path cache)).
      { rewrite Hpriv. cbn [proxy set_profiles].
        rewrite !(stored_frame proxy) by reflexivity. reflexivity. }
      assert (Ho5 : object_path (priv st5) = Some path).
      { rewrite Hpriv. cbn [object_path set_profiles].
        rewrite !(stored_frame object_path) by reflexivity. reflexivity. }
      destruct (fst res5) eqn:Hfst.
      * unfold bind, g_signal_connect, modify_priv, get_priv, log, ret.
        intros H. injection H as _ <-.
        unfold consistent. cbn [priv proxy object_path set_proxy]. rewrite Hp5.
        eexists. split; [reflexivity |]. rewrite Ho5. repeat split.
      * unfold ret. intros H. injection H as Hres _.
        rewrite Hres in Hfst. discriminate Hfst.
    + rewrite (bind_fault _ _ _ Hset). discriminate.
Qed.

Lemma bind_refused_run (st : State) (path : string) (e : GError) :
  proxy (priv st) = None ->
  reply_proxy_new daemon (requests st) COLORD_DBUS_SERVICE path
                  COLORD_DBUS_INTERFACE_DEVICE = inl e ->
  cd_device_set_object_path_sync path st
  = Done ((false,
           g_set_error ("Failed to connect to device " ++ path ++ ": "
                        ++ message e)),
          {| priv := priv st;
             requests := requests st
                         ++ [ProxyNewForBus COLORD_DBUS_SERVICE path
                                            COLORD_DBUS_INTERFACE_DEVICE];
             emitted := emitted st; messages := messages st |}).
Proof.
  intros Hproxy Hreply. unfold cd_device_set_object_path_sync.
  unfold bind at 1, get_priv. rewrite Hproxy.
  unfold bind at 1, g_dbus_proxy_new_for_bus_sync.
  unfold bind at 1, send. rewrite Hreply. reflexivity.
Qed.

(** *** The bind *)

(** X1.  When the bus refuses the connection, the bind of an unbound
    device returns FALSE with a cd_device_error whose message is "Failed
    to connect to device <path>: <the bus's message>".  The request is
    the only trace: the private data is untouched, so the device is
    still unbound and can be bound again. *)
Theorem bind_connection_refused (st : State) (path : string) (e : GError) :
  proxy (priv st) = None ->
  reply_proxy_new daemon (requests st) COLORD_DBUS_SERVICE path
                  COLORD_DBUS_INTERFACE_DEVICE = inl e ->
  cd_device_set_object_path_sync path st
  = Done ((false,
           Some {| domain := "cd_device_error";
                   message := "Failed to connect to device " ++ path ++ ": "
                              ++ message e |}),
          {| priv := priv st;
             requests := requests st
                         ++ [ProxyNewForBus COLORD_DBUS_SERVICE path
                                            COLORD_DBUS_INTERFACE_DEVICE];
             emitted := emitted st; messages := messages st |}).
Proof.
  intros Hproxy Hreply. apply (bind_refused_run st path e Hproxy Hreply).
Qed.

(** X18.  A refused connection does not spend the device: when the bus
    refuses a first bind and then accepts a second one (to any path) with
    well-typed attributes and a fully resolvable Profiles list, the
    second bind is not turned away by the already-bound guard; it
    returns TRUE and leaves the device listening at the second path.
    (A bind that fails at the profile resolution is different: it keeps
    its proxy, and every later bind is rejected.) *)
Theorem bind_retry_after_refusal
  (st : State) (path path' : string) (e : GError)
  (cache : list (string * GVariant)) (paths : list string) :
  let asked (p : string) :=
    ProxyNewForBus COLORD_DBUS_SERVICE p COLORD_DBUS_INTERFACE_DEVICE in
  proxy (priv st) = None ->
  reply_proxy_new daemon (requests st) COLORD_DBUS_SERVICE path
                  COLORD_DBUS_INTERFACE_DEVICE = inl e ->
  reply_proxy_new daemon (requests st ++ [asked path])%list COLORD_DBUS_SERVICE
                  path' COLORD_DBUS_INTERFACE_DEVICE = inr cache ->
  absent_or is_string (lookup_property cache "DeviceId") ->
  absent_or is_string (lookup_property cache "Kind") ->
  absent_or is_string (lookup_property cache "Model") ->
  absent_or is_uint64 (lookup_property cache "Created") ->
  lookup_property cache "Profiles" = Some (object_paths paths) ->
  first_failure ((requests st ++ [asked path]) ++ [asked path'])%list paths
    = None ->
  exists first st',
    bind (cd_device_set_object_path_sync path)
         (fun r => bind (cd_device_set_object_path_sync path')
                        (fun r' => ret (r, r'))) st
    = Done (((false, Some first), (true, None)), st')
    /\ consistent st'
    /\ object_path (priv st') = Some path'
    /\ length (profiles (priv st')) = length paths.
Proof.
  cbn zeta.
  intros Hproxy Hrefused Hreply Hid Hkind Hmodel Hcreated Hprofiles Hall.
  rewrite (bind_done _ _ _ _ _ (bind_refused_run st path e Hproxy Hrefused)).
  set (st1 := {| priv := priv st; requests := _; emitted := _; messages := _ |}).
  destruct (bind_connected st1 path' cache paths Hproxy Hreply
              Hid Hkind Hmodel Hcreated Hprofiles)
    as (res & new & st' & Hrun & _ & Hnew & Hcase).
  subst st1. cbn [priv requests] in *.
  rewrite Hall in Hnew, Hcase. destruct Hcase as (-> & Hpriv).
  rewrite (bind_done _ _ _ _ _ Hrun). unfold ret, g_set_error.
  eexists _, st'. split; [reflexivity |].
  split.
  { eapply bind_true_consistent; [| exact Hrun]. exact Hproxy. }
  rewrite Hpriv. cbn [object_path profiles set_proxy set_profiles].
  unfold after_scalar_reads.
  rewrite !(stored_frame object_path) by reflexivity.
  split; [reflexivity |].
  apply (f_equal (@length _)) in Hnew. rewrite !length_map in Hnew. exact Hnew.
Qed.

(** X2.  When the connection is made but the path at position [k] of
    the Profiles list is the first the daemon refuses to resolve, the
    bind returns FALSE with a cd_device_error whose message is "Failed to
    set profile object path: <the refusal's message>".  The device is
    left half initialised: it has the proxy (no handler connected) and
    the object path, the scalar attributes read from the cache, and as
    its profile list exactly the references the daemon resolved for the
    [k] paths before the refused one, in their order; the requests made
    are the connection and the resolutions up to and including the
    refused one; nothing is emitted or logged. *)
Theorem bind_stops_at_unresolved_profile
  (st : State) (path : string) (cache : list (string * GVariant))
  (paths : list string) (k : nat) :
  proxy (priv st) = None ->
  reply_proxy_new daemon (requests st) COLORD_DBUS_SERVICE path
                  COLORD_DBUS_INTERFACE_DEVICE = inr cache ->
  absent_or is_string (lookup_property cache "DeviceId") ->
  absent_or is_string (lookup_property cache "Kind") ->
  absent_or is_string (lookup_property cache "Model") ->
  absent_or is_uint64 (lookup_property cache "Created") ->
  lookup_property cache "Profiles" = Some (object_paths paths) ->
  first_failure (requests st ++ [ProxyNewForBus COLORD_DBUS_SERVICE path
                                   COLORD_DBUS_INTERFACE_DEVICE])%list paths
    = Some k ->
  exists e bad st',
    nth_error paths k = Some bad
    /\ reply_profile daemon
         (requests st
          ++ ProxyNewForBus COLORD_DBUS_SERVICE path COLORD_DBUS_INTERFACE_DEVICE
             :: map ProfileSetObjectPath (firstn k paths))%list bad
       = inl e
    /\ cd_device_set_object_path_sync path st
       = Done ((false,
                Some {| domain := "cd_device_error";
                        message := "Failed to set profile object path: "
                                   ++ message e |}), st')
    /\ proxy (priv st') = Some (fresh_proxy path cache)
    /\ object_path (priv st') = Some path
    /\ priv st' = set_profiles (profiles (priv st'))
                               (after_scalar_reads path cache (priv st))
    /\ profiles (priv st')
       = resolved_references
           (requests st ++ [ProxyNewForBus COLORD_DBUS_SERVICE path
                              COLORD_DBUS_INTERFACE_DEVICE])%list paths
    /\ map profile_object_path (profiles (priv st')) = map Some (firstn k paths)
    /\ length (profiles (priv st')) = k
    /\ requests st'
       = (requests st
          ++ ProxyNewForBus COLORD_DBUS_SERVICE path COLORD_DBUS_INTERFACE_DEVICE
             :: map ProfileSetObjectPath (firstn (S k) paths))%list
    /\ emitted st' = emitted st
    /\ messages st' = messages st.
Proof.
  intros Hproxy Hreply Hid Hkind Hmodel Hcreated Hprofiles Hfail.
  rewrite (bind_after_connect st path cache Hproxy Hreply Hid Hkind Hmodel Hcreated).
  rewrite Hprofiles.
  set (st4 := {| priv := _; requests := _; emitted := _; messages := _ |}).
  destruct (set_profiles_array_spec paths st4)
    as (res & new & st5 & Hrun & Hpriv & Hem & Hmsg & Hcase).
  destruct (set_profiles_array_error paths st4 k res st5 Hfail Hrun)
    as (e & bad & Hnth & Hbad & Hres).
  pose proof (set_profiles_array_exact paths st4 res st5 Hrun) as Hexact.
  assert (Hsame : new = resolved_references (requests st4) paths).
  { rewrite Hpriv in Hexact. apply (f_equal profiles) in Hexact. exact Hexact. }
  subst st4. cbn [priv requests emitted messages] in *.
  rewrite Hfail in Hcase. destruct Hcase as (_ & Hk & Hnew & Hreq).
  exists e, bad, st5.
  rewrite <- app_assoc in Hbad, Hreq. cbn [app] in Hbad, Hreq.
  split; [exact Hnth |]. split; [exact Hbad |].
  split.
  { rewrite (bind_done _ _ _ _ _ Hrun). rewrite Hres. reflexivity. }
  assert (Hlen : length new = k).
  { apply (f_equal (@length _)) in Hnew.
    rewrite !length_map, firstn_length_le in Hnew by lia. exact Hnew. }
  rewrite Hpriv. cbn [proxy object_path profiles set_profiles].
  rewrite after_scalar_reads_proxy.
  unfold after_scalar_reads at 1.
  rewrite !(stored_frame object_path) by reflexivity.
  repeat split; assumption.
Qed.

(** X16.  A bind that succeeds on a cache of well-typed attributes and a
    fully resolvable Profiles list talks to the bus exactly once for the
    connection and once per profile path, in the order of the list; it
    logs one debug line naming the id it ended with, and emits no
    "changed" to the observers. *)
Theorem successful_bind_trace
  (st : State) (path : string) (cache : list (string * GVariant))
  (paths : list string) :
  proxy (priv st) = None ->
  reply_proxy_new daemon (requests st) COLORD_DBUS_SERVICE path
                  COLORD_DBUS_INTERFACE_DEVICE = inr cache ->
  absent_or is_string (lookup_property cache "DeviceId") ->
  absent_or is_string (lookup_property cache "Kind") ->
  absent_or is_string (lookup_property cache "Model") ->
  absent_or is_uint64 (lookup_property cache "Created") ->
  lookup_property cache "Profiles" = Some (object_paths paths) ->
  first_failure (requests st ++ [ProxyNewForBus COLORD_DBUS_SERVICE path
                                   COLORD_DBUS_INTERFACE_DEVICE])%list paths
    = None ->
  exists st',
    cd_device_set_object_path_sync path st = Done ((true, None), st')
    /\ requests st'
       = (requests st
          ++ ProxyNewForBus COLORD_DBUS_SERVICE path COLORD_DBUS_INTERFACE_DEVICE
             :: map ProfileSetObjectPath paths)%list
    /\ messages st'
       = (messages st
          ++ [LogDebug ("Connected to device " ++ fmt_s (id (priv st')))])%list
    /\ emitted st' = emitted st.
Proof.
  intros Hproxy Hreply Hid Hkind Hmodel Hcreated Hprofiles Hall.
  rewrite (bind_after_connect st path cache Hproxy Hreply Hid Hkind Hmodel Hcreated).
  rewrite Hprofiles.
  set (st4 := {| priv := _; requests := _; emitted := _; messages := _ |}).
  destruct (set_profiles_array_spec paths st4)
    as (res & new & st5 & Hrun & Hpriv & Hem & Hmsg & Hcase).
  subst st4. cbn [priv requests emitted messages] in *.
  rewrite Hall in Hcase. destruct Hcase as (-> & _ & Hreq).
  rewrite (bind_done _ _ _ _ _ Hrun).
  unfold finish_bind. cbn [fst].
  unfold bind, g_signal_connect, modify_priv, get_priv, log, ret.
  cbn [priv requests emitted messages].
  eexists. split; [reflexivity |].
  cbn [priv requests emitted messages id set_proxy].
  rewrite Hreq, Hmsg, Hem, <- app_assoc. repeat split.
Qed.

(** X3.  Every state of a bound device is consistent: its proxy was made
    for the colord service and the device interface at the very object
    path the device records, and it carries the signal handler and the
    properties handler, each connected exactly once.  No delivery and no
    call of the interface breaks this. *)
Theorem bound_device_consistent (st : State) : Bound st -> consistent st.
Proof.
  induction 1 as [ st path e st' Hproxy Hrun
                 | st ev st' _ IH Hrun
                 | st path r st' _ IH Hrun
                 | st value r st' _ IH Hrun
                 | st k r st' _ IH Hrun
                 | st profile r st' _ IH Hrun
                 | st profile r st' _ IH Hrun
                 | st qualifier r st' _ IH Hrun ].
  - apply (bind_true_consistent st path e st' Hproxy Hrun).
  - apply deliver_frame in Hrun. destruct Hrun as (Hp & Ho & _).
    apply (consistent_same st st' Hp Ho IH).
  - destruct (consistent_proxy st IH) as (p & Hp).
    rewrite (bind_guard st p path Hp) in Hrun. injection Hrun as _ <-.
    apply (consistent_same st); [reflexivity | reflexivity | exact IH].
  - destruct (consistent_proxy st IH) as (p & Hp). revert Hrun.
    unfold cd_device_set_model_sync, bind at 1, get_priv. rewrite Hp.
    intros Hrun. apply set_property_sync_frame in Hrun.
    apply (consistent_same st); [rewrite Hrun .. | exact IH]; reflexivity.
  - destruct (consistent_proxy st IH) as (p & Hp). revert Hrun.
    unfold cd_device_set_kind_sync, bind at 1, get_priv. rewrite Hp.
    intros Hrun. apply set_property_sync_frame in Hrun.
    apply (consistent_same st); [rewrite Hrun .. | exact IH]; reflexivity.
  - destruct (consistent_proxy st IH) as (p & Hp). revert Hrun.
    unfold cd_device_add_profile_sync, bind at 1, get_priv. rewrite Hp.
    intros Hrun. apply forward_frame in Hrun.
    apply (consistent_same st); [rewrite Hrun .. | exact IH]; reflexivity.
  - destruct (consistent_proxy st IH) as (p & Hp). revert Hrun.
    unfold cd_device_make_profile_default_sync, bind at 1, get_priv. rewrite Hp.
    intros Hrun. apply forward_frame in Hrun.
    apply (consistent_same st); [rewrite Hrun .. | exact IH]; reflexivity.
  - apply get_profile_for_qualifier_frame in Hrun.
    apply (consistent_same st); [rewrite Hrun .. | exact IH]; reflexivity.
Qed.

(** *** What the bus delivers *)

(** X4.  Nothing the bus delivers changes the proxy, the object path,
    the id or the creation time of a device, in whatever state the
    device is and whatever the sequence of signals and property
    notifications: the callbacks write the model, the kind and the
    profile list only (a DeviceId or Created entry is an unhandled
    property). *)
Theorem deliveries_keep_identity (evs : list ProxyEvent) :
  forall st st' : State,
    deliver_all evs st = Done (tt, st') ->
    same_identity (priv st) (priv st').
Proof.
  induction evs as [| ev evs IH]; intros st st' Hrun.
  - injection Hrun as <-. repeat split.
  - cbn [deliver_all] in Hrun. unfold bind at 1 in Hrun.
    destruct (deliver ev st) as [[[] st1] |] eqn:Hev; [| discriminate].
    apply deliver_frame in Hev. apply IH in Hrun.
    apply (same_identity_trans _ _ _ Hev Hrun).
Qed.

(** X10.  On a bound device, the "changed" notifications emitted over
    any sequence of deliveries are exactly as many as the signals named
    "Changed" in it.  A properties-changed notification updates the
    mirror silently: it emits nothing to the observers; neither does a
    signal of another name. *)
Theorem emissions_count_changed_signals (evs : list ProxyEvent) :
  forall st st' : State,
    Bound st ->
    deliver_all evs st = Done (tt, st') ->
    emitted st' = (emitted st ++ repeat SIGNAL_CHANGED (count_changed evs))%list.
Proof.
  assert (Hgen : forall st st' : State,
             listening st ->
             deliver_all evs st = Done (tt, st') ->
             emitted st'
             = (emitted st ++ repeat SIGNAL_CHANGED (count_changed evs))%list).
  { induction evs as [| ev evs IH]; intros st st' Hl Hrun.
    - injection Hrun as <-. cbn. rewrite app_nil_r. reflexivity.
    - cbn [deliver_all] in Hrun. unfold bind at 1 in Hrun.
      destruct (deliver ev st) as [[[] st1] |] eqn:Hev; [| discriminate].
      pose proof (deliver_keeps_listening ev st st1 Hl Hev) as Hl1.
      rewrite (IH st1 st' Hl1 Hrun).
      rewrite (deliver_listening ev st Hl) in Hev.
      unfold count_changed.
      destruct ev as [sender_name signal_name parameters | changed invalidated];
        cbn [filter is_changed_signal].
      + rewrite signal_cb_run in Hev.
        destruct (g_strcmp0_eq signal_name "Changed");
          injection Hev as <-; cbn [emitted length repeat].
        * rewrite <- app_assoc. reflexivity.
        * reflexivity.
      + apply properties_changed_frame in Hev. destruct Hev as (_ & Hem).
        rewrite Hem. reflexivity. }
  intros st st' Hbound. apply Hgen. apply (bound_listening st Hbound).
Qed.

(** X9.  On a bound device a signal whose name is not "Changed" is not
    re-emitted: it leaves one warning, "unhandled signal '<name>'", and
    nothing else changes. *)
Theorem other_signals_only_warn
  (st : State) (sender_name signal_name : string) (parameters : GVariant) :
  Bound st ->
  signal_name <> "Changed" ->
  deliver (GSignal sender_name signal_name parameters) st
  = Done (tt, {| priv := priv st; requests := requests st;
                 emitted := emitted st;
                 messages := messages st
                             ++ [LogWarning ("unhandled signal '"
                                             ++ signal_name ++ "'")] |}).
Proof.
  intros Hbound Hname.
  rewrite (deliver_listening _ _ (bound_listening st Hbound)).
  rewrite signal_cb_run. unfold g_strcmp0_eq.
  apply String.eqb_neq in Hname. rewrite Hname. reflexivity.
Qed.

(** X5.  A properties-changed entry whose name is none of Model, Kind and
    Profiles (DeviceId and Created among them) changes nothing in the
    device: the handler logs the warning "<name> property unhandled" and
    goes on, whatever the value. *)
Theorem unknown_property_ignored
  (st : State) (name : string) (value : GVariant) (invalidated : list string) :
  name <> "Model" -> name <> "Kind" -> name <> "Profiles" ->
  cd_device_dbus_properties_changed [(name, value)] invalidated st
  = Done (tt, {| priv := priv st; requests := requests st;
                 emitted := emitted st;
                 messages := messages st
                             ++ [LogWarning (name ++ " property unhandled")] |}).
Proof.
  intros Hm Hk Hp.
  apply String.eqb_neq in Hm, Hk, Hp.
  cbn [cd_device_dbus_properties_changed].
  unfold properties_changed_entry, g_strcmp0_eq. rewrite Hm, Hk, Hp.
  reflexivity.
Qed.

(** X6.  A notification carrying both Model = m and Kind = k has the
    same effect whichever entry comes first in the dictionary: the model
    becomes m, the kind becomes cd_device_kind_from_string k, and nothing
    else moves. *)
Theorem model_and_kind_commute
  (st : State) (m k : string) (invalidated : list string) :
  cd_device_dbus_properties_changed
    [("Model", GVString m); ("Kind", GVString k)] invalidated st
  = cd_device_dbus_properties_changed
      [("Kind", GVString k); ("Model", GVString m)] invalidated st
  /\ cd_device_dbus_properties_changed
       [("Model", GVString m); ("Kind", GVString k)] invalidated st
     = Done (tt, {| priv := set_kind (cd_device_kind_from_string k)
                              (set_model (Some m) (priv st));
                    requests := requests st; emitted := emitted st;
                    messages := messages st |}).
Proof. split; reflexivity. Qed.

(** X7.  The properties handler works entry by entry: one notification
    carrying the entries [first ++ second] does exactly what two
    notifications do, [first] and then [second] (a fault included); of
    two Model entries the later one wins. *)
Theorem notification_batches_compose
  (first second : list (string * GVariant)) (invalidated : list string)
  (st : State) :
  cd_device_dbus_properties_changed (first ++ second) invalidated st
  = bind (cd_device_dbus_properties_changed first invalidated)
         (fun _ => cd_device_dbus_properties_changed second invalidated) st
  /\ forall a b : string,
       cd_device_dbus_properties_changed
         [("Model", GVString a); ("Model", GVString b)] invalidated st
       = cd_device_dbus_properties_changed [("Model", GVString b)] invalidated st.
Proof.
  split; [| reflexivity].
  revert st. induction first as [| [name value] rest IH]; intros st.
  - reflexivity.
  - cbn [app cd_device_dbus_properties_changed].
    rewrite bind_assoc. apply bind_ext. intros _ s. apply IH.
Qed.


(** *** The outgoing calls *)

(** X11.  On a device that has no proxy, set_model, set_kind,
    add_profile and make_profile_default all stop at their guard: each
    returns FALSE without a GError, sends nothing to the bus, and leaves
    only GLib's critical message naming the function and the failed
    assertion. *)
Theorem mutators_need_proxy (st : State) :
  proxy (priv st) = None ->
  let rejected (func : string) :=
    Done ((false, @None GError),
          {| priv := priv st; requests := requests st; emitted := emitted st;
             messages := messages st
                         ++ [LogCritical func "device->priv->proxy != NULL"] |}) in
  (forall value, cd_device_set_model_sync value st
                 = rejected "cd_device_set_model_sync")
  /\ (forall k, cd_device_set_kind_sync k st
                = rejected "cd_device_set_kind_sync")
  /\ (forall profile, cd_device_add_profile_sync profile st
                      = rejected "cd_device_add_profile_sync")
  /\ (forall profile, cd_device_make_profile_default_sync profile st
                      = rejected "cd_device_make_profile_default_sync").
Proof.
  intros Hproxy. cbn zeta.
  repeat split; intros;
    [ unfold cd_device_set_model_sync
    | unfold cd_device_set_kind_sync
    | unfold cd_device_add_profile_sync
    | unfold cd_device_make_profile_default_sync ];
    unfold bind at 1, get_priv; rewrite Hproxy; reflexivity.
Qed.

(** X12.  When the daemon answers one of the four forwarding calls with
    an error, the caller gets FALSE and a cd_device_error whose message
    is the daemon's message behind the call's own prefix: "Failed to set
    profile object path: " for set_model and for set_kind, "Failed to
    add profile to device: " for add_profile, "Failed to make profile
    default on device: " for make_profile_default. *)
Theorem mutator_errors_carry_remote_message
  (st : State) (p : GDBusProxy) (e : GError) :
  proxy (priv st) = Some p ->
  let failed (prefix : string) (res : bool * option GError) :=
    res = (false, Some {| domain := "cd_device_error";
                          message := prefix ++ message e |}) in
  (forall (value : string) res st',
      reply_call daemon (requests st) (g_object_path p) "SetProperty"
                 (GVTuple [GVString "Model"; GVString value]) = inl e ->
      cd_device_set_model_sync (Some value) st = Done (res, st') ->
      failed "Failed to set profile object path: " res)
  /\ (forall (k : CdDeviceKind) (name : string) res st',
        cd_device_kind_to_string k = Some name ->
        reply_call daemon (requests st) (g_object_path p) "SetProperty"
                   (GVTuple [GVString "Kind"; GVString name]) = inl e ->
        cd_device_set_kind_sync k st = Done (res, st') ->
        failed "Failed to set profile object path: " res)
  /\ (forall (profile : CdProfile) (path : string) res st',
        cd_profile_get_object_path profile = Some path ->
        reply_call daemon (requests st) (g_object_path p) "AddProfile"
                   (GVTuple [GVObjectPath path]) = inl e ->
        cd_device_add_profile_sync profile st = Done (res, st') ->
        failed "Failed to add profile to device: " res)
  /\ (forall (profile : CdProfile) (ident : string) res st',
        cd_profile_get_id profile = Some ident ->
        reply_call daemon (requests st) (g_object_path p) "MakeProfileDefault"
                   (GVTuple [GVString ident]) = inl e ->
        cd_device_make_profile_default_sync profile st = Done (res, st') ->
        failed "Failed to make profile default on device: " res).
Proof.
  intros Hp. cbn zeta. repeat split.
  - intros value res st' Hreply.
    unfold cd_device_set_model_sync, bind at 1, get_priv. rewrite Hp.
    unfold cd_device_set_property_sync, bind at 1, get_priv. rewrite Hp.
    cbn [g_variant_new_ss].
    rewrite (bind_done _ _ _ _ _ (call_sync_run p _ _ st)), Hreply.
    intros H. injection H as <- _. reflexivity.
  - intros k name res st' Hname Hreply.
    unfold cd_device_set_kind_sync, bind at 1, get_priv. rewrite Hp.
    unfold cd_device_set_property_sync, bind at 1, get_priv. rewrite Hp, Hname.
    cbn [g_variant_new_ss].
    rewrite (bind_done _ _ _ _ _ (call_sync_run p _ _ st)), Hreply.
    intros H. injection H as <- _. reflexivity.
  - intros profile path res st' Hpath Hreply.
    unfold cd_device_add_profile_sync, bind at 1, get_priv. rewrite Hp, Hpath.
    cbn [g_variant_new_o option_map].
    rewrite (bind_done _ _ _ _ _ (call_sync_run p _ _ st)), Hreply.
    intros H. injection H as <- _. reflexivity.
  - intros profile ident res st' Hident Hreply.
    unfold cd_device_make_profile_default_sync, bind at 1, get_priv.
    rewrite Hp, Hident. cbn [g_variant_new_s option_map].
    rewrite (bind_done _ _ _ _ _ (call_sync_run p _ _ st)), Hreply.
    intros H. injection H as <- _. reflexivity.
Qed.

(** X14.  When the daemon answers GetProfileForQualifier with an error,
    the lookup returns NULL and a cd_device_error "Failed to get a
    suitable profile: <the daemon's message>"; no profile resolution is
    attempted, and the device is as it was but for the one request. *)
Theorem qualifier_lookup_call_fails
  (st : State) (p : GDBusProxy) (qualifier : string) (e : GError) :
  proxy (priv st) = Some p ->
  reply_call daemon (requests st) (g_object_path p) "GetProfileForQualifier"
             (GVTuple [GVString qualifier]) = inl e ->
  cd_device_get_profile_for_qualifier_sync (Some qualifier) st
  = Done ((None,
           Some {| domain := "cd_device_error";
                   message := "Failed to get a suitable profile: " ++ message e |}),
          {| priv := priv st;
             requests := requests st
                         ++ [ProxyCall (g_object_path p) "GetProfileForQualifier"
                                       (GVTuple [GVString qualifier])];
             emitted := emitted st; messages := messages st |}).
Proof.
  intros Hp Hreply.
  unfold cd_device_get_profile_for_qualifier_sync.
  unfold bind at 1, get_priv. rewrite Hp.
  cbn [g_variant_new_s option_map].
  rewrite (bind_done _ _ _ _ _ (call_sync_run p _ _ st)), Hreply.
  reflexivity.
Qed.

(** X15.  When the daemon answers GetProfileForQualifier with a path but
    then refuses to resolve it, the lookup returns NULL and hands the
    refusal to the caller as it is (it is not wrapped in a
    cd_device_error, unlike a refusal met while filling the profile
    list).  The device is as it was but for the two requests. *)
Theorem qualifier_lookup_resolution_fails
  (st : State) (p : GDBusProxy) (qualifier path : string) (e : GError) :
  proxy (priv st) = Some p ->
  reply_call daemon (requests st) (g_object_path p) "GetProfileForQualifier"
             (GVTuple [GVString qualifier])
    = inr (GVTuple [GVObjectPath path]) ->
  reply_profile daemon
                (requests st
                 ++ [ProxyCall (g_object_path p) "GetProfileForQualifier"
                               (GVTuple [GVString qualifier])])%list
                path
    = inl e ->
  cd_device_get_profile_for_qualifier_sync (Some qualifier) st
  = Done ((None, Some e),
          {| priv := priv st;
             requests := (requests st
                          ++ [ProxyCall (g_object_path p) "GetProfileForQualifier"
                                        (GVTuple [GVString qualifier])])
                         ++ [ProfileSetObjectPath path];
             emitted := emitted st; messages := messages st |}).
Proof.
  intros Hp Hcall Hprofile.
  unfold cd_device_get_profile_for_qualifier_sync.
  unfold bind at 1, get_priv. rewrite Hp.
  cbn [g_variant_new_s option_map].
  rewrite (bind_done _ _ _ _ _ (call_sync_run p _ _ st)), Hcall.
  unfold bind at 1, within_contract. cbn [g_variant_get_o].
  unfold bind at 1, cd_profile_set_object_path_sync.
  unfold bind at 1, send. cbn [requests]. rewrite Hprofile.
  reflexivity.
Qed.

(** *** The GObject properties *)

(** X13.  Each of the four properties reads back what was written, on
    any device, bound or not: the id and the model as the very string
    (NULL included), the creation time as a guint64 and the kind as a
    guint.  Writing a property is local: it sends nothing to the bus,
    emits nothing, and touches no other field. *)
Theorem property_round_trip (st : State) :
  let written (d : CdDevicePrivate) :=
    {| priv := d; requests := requests st; emitted := emitted st;
       messages := messages st |} in
  (forall s : option string,
      bind (cd_device_set_property PROP_ID (GValueString s))
           (fun _ => cd_device_get_property PROP_ID) st
      = Done (Some (GValueString s), written (set_id s (priv st))))
  /\ (forall s : option string,
        bind (cd_device_set_property PROP_MODEL (GValueString s))
             (fun _ => cd_device_get_property PROP_MODEL) st
        = Done (Some (GValueString s), written (set_model s (priv st))))
  /\ (forall n : N,
        bind (cd_device_set_property PROP_CREATED (GValueUint64 n))
             (fun _ => cd_device_get_property PROP_CREATED) st
        = Done (Some (GValueUint64 (n mod guint64_modulus)%N),
                written (set_created (n mod guint64_modulus)%N (priv st))))
  /\ (forall n : N,
        bind (cd_device_set_property PROP_KIND (GValueUint n))
             (fun _ => cd_device_get_property PROP_KIND) st
        = Done (Some (GValueUint (n mod guint_modulus)%N),
                written (set_kind (n mod guint_modulus)%N (priv st)))).
Proof.
  cbn zeta. split; [| split; [| split]]; intros.
  - reflexivity.
  - reflexivity.
  - reflexivity.
  - cbv beta iota delta
        [bind cd_device_set_property cd_device_get_property within_contract
         modify_priv get_priv ret N.eqb Pos.eqb PROP_KIND PROP_ID PROP_MODEL
         PROP_CREATED g_value_get_uint priv kind set_kind].
    rewrite N.Div0.mod_mod. reflexivity.
Qed.

(** X17.  A property id that is not one of the four installed (0, or 5
    and above) reaches the default branch of both switches: writing it
    changes nothing in the device and reading it leaves the caller's
    GValue untouched; each only logs a warning. *)
Theorem invalid_property_id (st : State) (prop_id : N) (value : GValue) :
  prop_id = PROP_0 \/ (PROP_LAST <= prop_id)%N ->
  exists text,
    cd_device_set_property prop_id value st
    = Done (tt, {| priv := priv st; requests := requests st;
                   emitted := emitted st;
                   messages := messages st ++ [LogWarning text] |})
    /\ cd_device_get_property prop_id st
       = Done (None, {| priv := priv st; requests := requests st;
                        emitted := emitted st;
                        messages := messages st ++ [LogWarning text] |}).
Proof.
  intros Hid.
  assert (H1 : N.eqb prop_id PROP_CREATED = false)
    by (apply N.eqb_neq; unfold PROP_0, PROP_LAST, PROP_CREATED in *; lia).
  assert (H2 : N.eqb prop_id PROP_ID = false)
    by (apply N.eqb_neq; unfold PROP_0, PROP_LAST, PROP_ID in *; lia).
  assert (H3 : N.eqb prop_id PROP_MODEL = false)
    by (apply N.eqb_neq; unfold PROP_0, PROP_LAST, PROP_MODEL in *; lia).
  assert (H4 : N.eqb prop_id PROP_KIND = false)
    by (apply N.eqb_neq; unfold PROP_0, PROP_LAST, PROP_KIND in *; lia).
  eexists. split.
  - unfold cd_device_set_property. rewrite H1, H2, H3, H4. reflexivity.
  - unfold cd_device_get_property, bind at 1, get_priv.
    rewrite H1, H2, H3, H4. reflexivity.
Qed.

End Device.

(** ** The code on explicit inputs *)

Example bind_display :
  cd_device_set_object_path_sync Fixture.service Fixture.interface
    Fixture.kind_from_string Fixture.daemon "/device/lvds1" cd_device_new
  = Done ((true, None), Fixture.bound).
Proof. reflexivity. Qed.

Example bind_broken :
  cd_device_set_object_path_sync Fixture.service Fixture.interface
    Fixture.kind_from_string (Fixture.daemon_with Fixture.broken_properties)
    "/device/lvds1" cd_device_new
  = Done ((false, Some Fixture.unresolved), Fixture.half_bound).
Proof. reflexivity. Qed.

Lemma fixture_bound :
  Bound Fixture.service Fixture.interface Fixture.kind_from_string
        Fixture.kind_to_string Fixture.daemon Fixture.bound.
Proof.
  apply (Bound_bind Fixture.service Fixture.interface Fixture.kind_from_string
           Fixture.kind_to_string Fixture.daemon
           cd_device_new "/device/lvds1" None Fixture.bound);
    reflexivity.
Defined.

(** C1, as stated, fails.  The bound display device holds the profiles
    /profile/1 and /profile/2; a notification Profiles = [/profile/1,
    /profile/bad], whose second path does not resolve, leaves the list
    [/profile/1]: the old list is not retained. *)
Lemma profiles_changed_old_list_not_retained :
  Bound Fixture.service Fixture.interface Fixture.kind_from_string
        Fixture.kind_to_string Fixture.daemon Fixture.bound
  /\ first_failure Fixture.daemon (requests Fixture.bound)
                   ["/profile/1"; "/profile/bad"] = Some 1
  /\ exists st',
       deliver Fixture.kind_from_string Fixture.daemon
         (GPropertiesChanged
            [("Profiles", object_paths ["/profile/1"; "/profile/bad"])] [])
         Fixture.bound = Done (tt, st')
       /\ profiles (priv Fixture.bound)
          = [Fixture.profile_at "/profile/1"; Fixture.profile_at "/profile/2"]
       /\ profiles (priv st') = [Fixture.profile_at "/profile/1"]
       /\ profiles (priv st') <> profiles (priv Fixture.bound).
Proof.
  split; [exact fixture_bound |]. split; [reflexivity |].
  eexists. split; [reflexivity |]. split; [reflexivity |].
  split; [reflexivity |]. discriminate.
Qed.

Lemma profiles_changed_keeps_resolved_prefix_witness :
  first_failure Fixture.daemon (requests Fixture.bound)
                ["/profile/3"; "/profile/bad"] = Some 1
  /\ exists st',
       deliver Fixture.kind_from_string Fixture.daemon
         (GPropertiesChanged
            [ ("Model", GVString "X");
              ("Profiles", object_paths ["/profile/3"; "/profile/bad"]);
              ("DeviceId", GVString "other") ] [])
         Fixture.bound = Done (tt, st')
       /\ profiles (priv Fixture.bound)
          = [Fixture.profile_at "/profile/1"; Fixture.profile_at "/profile/2"]
       /\ profiles (priv st') = [Fixture.profile_at "/profile/3"]
       /\ requests st'
          = (requests Fixture.bound
             ++ [ProfileSetObjectPath "/profile/3";
                 ProfileSetObjectPath "/profile/bad"])%list
       /\ emitted st' = emitted Fixture.bound
       /\ messages st'
          = (messages Fixture.bound
             ++ [LogWarning "DeviceId property unhandled"])%list.
Proof.
  split; [reflexivity |].
  destruct (profiles_changed_keeps_resolved_prefix
              Fixture.service Fixture.interface Fixture.kind_from_string
              Fixture.kind_to_string Fixture.daemon Fixture.bound
              [("Model", GVString "X")] [("DeviceId", GVString "other")]
              ["/profile/3"; "/profile/bad"] [] 1)
    as (st' & Hrun & _ & Hprofiles & _ & _ & _ & Hreq & _ & Hem & Hmsg & _).
  - exact fixture_bound.
  - constructor; [| constructor].
    split; [discriminate | intros _; exists "X"; reflexivity].
  - constructor; [| constructor].
    split; [discriminate | intros [H | H]; discriminate H].
  - reflexivity.
  - exists st'. split; [exact Hrun |]. split; [reflexivity |].
    split; [rewrite Hprofiles; reflexivity |].
    split; [exact Hreq |]. split; [exact Hem | exact Hmsg].
Defined.

Lemma rebind_rejected_witness :
  proxy (priv Fixture.bound) = Some Fixture.listening_proxy
  /\ exists st',
       cd_device_set_object_path_sync Fixture.service Fixture.interface
         Fixture.kind_from_string Fixture.daemon "/device/other" Fixture.bound
       = Done ((false, None), st')
       /\ priv st' = priv Fixture.bound
       /\ requests st' = requests Fixture.bound
       /\ emitted st' = emitted Fixture.bound
       /\ messages st'
          = (messages Fixture.bound
             ++ [LogCritical "cd_device_set_object_path_sync"
                             "device->priv->proxy == NULL"])%list.
Proof.
  split; [reflexivity |].
  apply (rebind_rejected Fixture.service Fixture.interface
           Fixture.kind_from_string Fixture.daemon Fixture.bound
           Fixture.listening_proxy "/device/other").
  reflexivity.
Defined.

Lemma bind_mirrors_initial_properties_witness :
  exists st',
    cd_device_set_object_path_sync Fixture.service Fixture.interface
      Fixture.kind_from_string Fixture.daemon "/device/lvds1" cd_device_new
    = Done ((true, None), st')
    /\ cd_device_get_id st' = Some "xrandr-lvds1"
    /\ cd_device_get_model st' = Some "LVDS panel"
    /\ cd_device_get_kind st' = Fixture.kind_from_string "display"
    /\ cd_device_get_created st' = 1300000000%N
    /\ length (cd_device_get_profiles st') = length ["/profile/1"; "/profile/2"]
    /\ cd_device_get_object_path st' = Some "/device/lvds1"
    /\ listening st'.
Proof.
  apply (bind_mirrors_initial_properties Fixture.service Fixture.interface
           Fixture.kind_from_string Fixture.daemon cd_device_new "/device/lvds1"
           Fixture.display_properties);
    reflexivity.
Defined.

Lemma remote_requests_leave_snapshot_witness :
  proxy (priv Fixture.bound) = Some Fixture.listening_proxy
  /\ fire_and_forget Fixture.daemon
       (cd_device_set_model_sync Fixture.daemon (Some "Panel B"))
       Fixture.listening_proxy "SetProperty"
       (g_variant_new_ss (Some "Model") (Some "Panel B")) Fixture.bound
  /\ fire_and_forget Fixture.daemon
       (cd_device_add_profile_sync Fixture.daemon (Fixture.profile_at "/profile/3"))
       Fixture.listening_proxy "AddProfile"
       (g_variant_new_o (Some "/profile/3")) Fixture.bound.
Proof.
  split; [reflexivity |].
  destruct (remote_requests_leave_snapshot Fixture.kind_to_string Fixture.daemon
              Fixture.bound Fixture.listening_proxy eq_refl)
    as (Hmodel & _ & Hadd & _).
  split; [apply (Hmodel (Some "Panel B")) |].
  apply (Hadd (Fixture.profile_at "/profile/3")).
Defined.

(** C5, as stated, fails on the empty qualifier.  On the bound display
    device the call with the empty string is not rejected: both requests
    go out and a profile comes back. *)
Lemma empty_qualifier_reaches_daemon :
  exists st',
    cd_device_get_profile_for_qualifier_sync Fixture.daemon (Some "")
                                             Fixture.bound
    = Done ((Some (Fixture.profile_at "/profile/1"), None), st')
    /\ requests st'
       = (requests Fixture.bound
          ++ [ ProxyCall "/device/lvds1" "GetProfileForQualifier"
                         (GVTuple [GVString ""]);
               ProfileSetObjectPath "/profile/1" ])%list
    /\ requests st' <> requests Fixture.bound.
Proof.
  eexists. split; [reflexivity |]. split; [reflexivity |]. discriminate.
Qed.

Lemma qualifier_lookup_guards_witness :
  (@None string = None \/ proxy (priv Fixture.bound) = None)
  /\ exists st',
       cd_device_get_profile_for_qualifier_sync Fixture.daemon None Fixture.bound
       = Done ((None, None), st')
       /\ requests st' = requests Fixture.bound
       /\ priv st' = priv Fixture.bound
       /\ emitted st' = emitted Fixture.bound.
Proof.
  split; [left; reflexivity |].
  apply (qualifier_lookup_guards Fixture.daemon Fixture.bound None).
  left. reflexivity.
Defined.

Lemma qualifier_lookup_returns_resolved_path_witness :
  exists profile st',
    cd_device_get_profile_for_qualifier_sync Fixture.daemon (Some "*.CMYK.*")
                                             Fixture.bound
    = Done ((Some profile, None), st')
    /\ cd_profile_get_object_path profile = Some "/profile/1"
    /\ priv st' = priv Fixture.bound
    /\ forall cached : list CdProfile,
         exists st'',
           cd_device_get_profile_for_qualifier_sync
             Fixture.daemon (Some "*.CMYK.*") (with_profiles cached Fixture.bound)
           = Done ((Some profile, None), st'')
           /\ cd_device_get_profiles st'' = cached.
Proof.
  apply (qualifier_lookup_returns_resolved_path Fixture.daemon Fixture.bound
           Fixture.listening_proxy "*.CMYK.*" "/profile/1"
           (Some "icc-/profile/1"));
    reflexivity.
Defined.

Lemma model_changed_updates_model_only_witness :
  exists st',
    deliver Fixture.kind_from_string Fixture.daemon
      (GPropertiesChanged [("Model", GVString "X")] []) Fixture.bound
    = Done (tt, st')
    /\ cd_device_dbus_properties_changed Fixture.kind_from_string
         Fixture.daemon [("Model", GVString "X")] [] Fixture.bound
       = Done (tt, st')
    /\ model (priv st') = Some "X"
    /\ kind (priv st') = kind (priv Fixture.bound)
    /\ id (priv st') = id (priv Fixture.bound)
    /\ created (priv st') = created (priv Fixture.bound)
    /\ profiles (priv st') = profiles (priv Fixture.bound)
    /\ object_path (priv st') = object_path (priv Fixture.bound)
    /\ proxy (priv st') = proxy (priv Fixture.bound)
    /\ requests st' = requests Fixture.bound
    /\ emitted st' = emitted Fixture.bound.
Proof.
  apply (model_changed_updates_model_only
           Fixture.service Fixture.interface Fixture.kind_from_string
           Fixture.kind_to_string Fixture.daemon Fixture.bound "X" []).
  exact fixture_bound.
Defined.

Lemma changed_signals_reemitted_one_by_one_witness :
  Forall is_changed [ GSignal ":1.42" "Changed" (GVTuple []);
                      GSignal ":1.42" "Changed" (GVTuple []) ]
  /\ 2 <= length [ GSignal ":1.42" "Changed" (GVTuple []);
                   GSignal ":1.42" "Changed" (GVTuple []) ]
  /\ exists st',
       deliver_all Fixture.kind_from_string Fixture.daemon
         (firstn 2 [ GSignal ":1.42" "Changed" (GVTuple []);
                     GSignal ":1.42" "Changed" (GVTuple []) ])
         Fixture.bound
       = Done (tt, st')
       /\ emitted st'
          = (emitted Fixture.bound ++ repeat SIGNAL_CHANGED 2)%list
       /\ priv st' = priv Fixture.bound
       /\ requests st' = requests Fixture.bound.
Proof.
  assert (Hall : Forall is_changed [ GSignal ":1.42" "Changed" (GVTuple []);
                                     GSignal ":1.42" "Changed" (GVTuple []) ])
    by (repeat constructor; exists ":1.42", (GVTuple []); reflexivity).
  assert (Hn : 2 <= length [ GSignal ":1.42" "Changed" (GVTuple []);
                             GSignal ":1.42" "Changed" (GVTuple []) ])
    by (simpl; lia).
  split; [exact Hall |]. split; [exact Hn |].
  exact (changed_signals_reemitted_one_by_one
           Fixture.service Fixture.interface Fixture.kind_from_string
           Fixture.kind_to_string Fixture.daemon Fixture.bound _ 2
           fixture_bound Hall Hn).
Defined.

Lemma absent_scalars_keep_defaults_witness :
  exists st',
    cd_device_set_object_path_sync Fixture.service Fixture.interface
      Fixture.kind_from_string (Fixture.daemon_with Fixture.bare_properties)
      "/device/bare" cd_device_new
    = Done ((true, None), st')
    /\ id (priv st') = None
    /\ kind (priv st') = CD_DEVICE_KIND_UNKNOWN
    /\ model (priv st') = None
    /\ created (priv st') = 0%N.
Proof.
  destruct (absent_scalars_keep_defaults Fixture.service Fixture.interface
              Fixture.kind_from_string (Fixture.daemon_with Fixture.bare_properties)
              cd_device_new "/device/bare" Fixture.bare_properties
              eq_refl eq_refl I I I I)
    as (_ & Hbind & _).
  destruct (Hbind ["/profile/1"] eq_refl eq_refl)
    as (st' & Hrun & Hid & Hkind & Hmodel & Hcreated).
  exists st'. split; [exact Hrun |].
  split; [exact (Hid eq_refl) |]. split; [exact (Hkind eq_refl) |].
  split; [exact (Hmodel eq_refl) | exact (Hcreated eq_refl)].
Defined.

Lemma failed_bind_never_listens_witness :
  (exists p, proxy (priv Fixture.half_bound) = Some p /\ handlers p = [])
  /\ (forall evs : list ProxyEvent,
        deliver_all Fixture.kind_from_string
          (Fixture.daemon_with Fixture.broken_properties) evs Fixture.half_bound
        = Done (tt, Fixture.half_bound))
  /\ (forall path' : string,
        exists st'',
          cd_device_set_object_path_sync Fixture.service Fixture.interface
            Fixture.kind_from_string
            (Fixture.daemon_with Fixture.broken_properties) path'
            Fixture.half_bound
          = Done ((false, None), st'')
          /\ priv st'' = priv Fixture.half_bound).
Proof.
  apply (failed_bind_never_listens Fixture.service Fixture.interface
           Fixture.kind_from_string
           (Fixture.daemon_with Fixture.broken_properties)
           cd_device_new "/device/lvds1"
           (false, Some Fixture.unresolved) Fixture.half_bound).
  - reflexivity.
  - reflexivity.
  - reflexivity.
  - discriminate.
Defined.

(** ** The further properties on explicit inputs *)

Lemma bind_connection_refused_witness :
  cd_device_set_object_path_sync Fixture.service Fixture.interface
    Fixture.kind_from_string Fixture.offline "/device/lvds1" cd_device_new
  = Done ((false,
           Some {| domain := "cd_device_error";
                   message := "Failed to connect to device /device/lvds1: no such object" |}),
          {| priv := cd_device_init;
             requests := [ProxyNewForBus Fixture.service "/device/lvds1"
                                         Fixture.interface];
             emitted := []; messages := [] |}).
Proof.
  apply (bind_connection_refused Fixture.service Fixture.interface
           Fixture.kind_from_string Fixture.offline cd_device_new
           "/device/lvds1" Fixture.refusal);
    reflexivity.
Defined.

Lemma bind_stops_at_unresolved_profile_witness :
  exists st',
    cd_device_set_object_path_sync Fixture.service Fixture.interface
      Fixture.kind_from_string (Fixture.daemon_with Fixture.broken_properties)
      "/device/lvds1" cd_device_new
    = Done ((false,
             Some {| domain := "cd_device_error";
                     message := "Failed to set profile object path: no such object" |}),
            st')
    /\ proxy (priv st') = Some Fixture.silent_proxy
    /\ object_path (priv st') = Some "/device/lvds1"
    /\ profiles (priv st') = [Fixture.profile_at "/profile/1"]
    /\ requests st'
       = [ ProxyNewForBus Fixture.service "/device/lvds1" Fixture.interface;
           ProfileSetObjectPath "/profile/1";
           ProfileSetObjectPath "/profile/bad" ]
    /\ emitted st' = []
    /\ messages st' = [].
Proof.
  destruct (bind_stops_at_unresolved_profile Fixture.service Fixture.interface
              Fixture.kind_from_string
              (Fixture.daemon_with Fixture.broken_properties)
              cd_device_new "/device/lvds1" Fixture.broken_properties
              ["/profile/1"; "/profile/bad"] 1)
    as (e & bad & st' & Hnth & Hbad & Hrun & Hproxy & Hpath & _ & Hprofiles
        & _ & _ & Hreq & Hem & Hmsg).
  - reflexivity.
  - reflexivity.
  - exists "xrandr-lvds1". reflexivity.
  - exact I.
  - exact I.
  - exact I.
  - reflexivity.
  - reflexivity.
  - injection Hnth as <-. cbn in Hbad. injection Hbad as <-.
    exists st'. split; [exact Hrun |]. split; [exact Hproxy |].
    split; [exact Hpath |]. split; [rewrite Hprofiles; reflexivity |].
    split; [exact Hreq |]. split; [exact Hem | exact Hmsg].
Defined.

Lemma bound_device_consistent_witness :
  consistent Fixture.service Fixture.interface Fixture.bound.
Proof.
  apply (bound_device_consistent Fixture.service Fixture.interface
           Fixture.kind_from_string Fixture.kind_to_string Fixture.daemon
           Fixture.bound).
  exact fixture_bound.
Defined.

Lemma deliveries_keep_identity_witness :
  exists st',
    deliver_all Fixture.kind_from_string Fixture.daemon
      [ GPropertiesChanged [("DeviceId", GVString "other");
                            ("Model", GVString "X");
                            ("Profiles", object_paths [])] [];
        GSignal ":1.42" "Changed" (GVTuple []) ]
      Fixture.bound
    = Done (tt, st')
    /\ same_identity (priv Fixture.bound) (priv st').
Proof.
  eexists. split; [reflexivity |].
  apply (deliveries_keep_identity Fixture.kind_from_string Fixture.daemon
           [ GPropertiesChanged [("DeviceId", GVString "other");
                                 ("Model", GVString "X");
                                 ("Profiles", object_paths [])] [];
             GSignal ":1.42" "Changed" (GVTuple []) ]
           Fixture.bound).
  reflexivity.
Defined.

Lemma unknown_property_ignored_witness :
  cd_device_dbus_properties_changed Fixture.kind_from_string Fixture.daemon
    [("DeviceId", GVString "other")] [] Fixture.bound
  = Done (tt, {| priv := priv Fixture.bound; requests := requests Fixture.bound;
                 emitted := emitted Fixture.bound;
                 messages := messages Fixture.bound
                             ++ [LogWarning "DeviceId property unhandled"] |}).
Proof.
  apply (unknown_property_ignored Fixture.kind_from_string Fixture.daemon
           Fixture.bound "DeviceId" (GVString "other") []);
    discriminate.
Defined.


Lemma other_signals_only_warn_witness :
  deliver Fixture.kind_from_string Fixture.daemon
    (GSignal ":1.42" "Removed" (GVTuple [])) Fixture.bound
  = Done (tt, {| priv := priv Fixture.bound; requests := requests Fixture.bound;
                 emitted := emitted Fixture.bound;
                 messages := messages Fixture.bound
                             ++ [LogWarning "unhandled signal 'Removed'"] |}).
Proof.
  apply (other_signals_only_warn Fixture.service Fixture.interface
           Fixture.kind_from_string Fixture.kind_to_string Fixture.daemon
           Fixture.bound ":1.42" "Removed" (GVTuple [])).
  - exact fixture_bound.
  - discriminate.
Defined.

Lemma emissions_count_changed_signals_witness :
  exists st',
    deliver_all Fixture.kind_from_string Fixture.daemon
      [ GSignal ":1.42" "Changed" (GVTuple []);
        GPropertiesChanged [("Model", GVString "X")] [];
        GSignal ":1.42" "Removed" (GVTuple []);
        GSignal ":1.42" "Changed" (GVTuple []) ]
      Fixture.bound
    = Done (tt, st')
    /\ emitted st' = (emitted Fixture.bound ++ repeat SIGNAL_CHANGED 2)%list.
Proof.
  eexists. split; [reflexivity |].
  apply (emissions_count_changed_signals Fixture.service Fixture.interface
           Fixture.kind_from_string Fixture.kind_to_string Fixture.daemon
           [ GSignal ":1.42" "Changed" (GVTuple []);
             GPropertiesChanged [("Model", GVString "X")] [];
             GSignal ":1.42" "Removed" (GVTuple []);
             GSignal ":1.42" "Changed" (GVTuple []) ]
           Fixture.bound).
  - exact fixture_bound.
  - reflexivity.
Defined.

Lemma mutators_need_proxy_witness :
  cd_device_set_model_sync Fixture.daemon (Some "Panel B") cd_device_new
  = Done ((false, None),
          {| priv := cd_device_init; requests := []; emitted := [];
             messages := [LogCritical "cd_device_set_model_sync"
                                      "device->priv->proxy != NULL"] |})
  /\ cd_device_add_profile_sync Fixture.daemon (Fixture.profile_at "/profile/3")
       cd_device_new
     = Done ((false, None),
             {| priv := cd_device_init; requests := []; emitted := [];
                messages := [LogCritical "cd_device_add_profile_sync"
                                         "device->priv->proxy != NULL"] |}).
Proof.
  destruct (mutators_need_proxy Fixture.kind_to_string Fixture.daemon
              cd_device_new eq_refl)
    as (Hmodel & _ & Hadd & _).
  split; [apply (Hmodel (Some "Panel B")) |].
  apply (Hadd (Fixture.profile_at "/profile/3")).
Defined.

Lemma mutator_errors_carry_remote_message_witness :
  exists res st',
    cd_device_set_model_sync Fixture.offline (Some "Panel B") Fixture.bound
    = Done (res, st')
    /\ res = (false,
              Some {| domain := "cd_device_error";
                      message := "Failed to set profile object path: "
                                 ++ message Fixture.refusal |}).
Proof.
  eexists _, _. split; [reflexivity |].
  destruct (mutator_errors_carry_remote_message Fixture.kind_to_string
              Fixture.offline Fixture.bound Fixture.listening_proxy
              Fixture.refusal eq_refl)
    as (Hmodel & _).
  apply (Hmodel "Panel B" _ _ eq_refl eq_refl).
Defined.

Lemma qualifier_lookup_call_fails_witness :
  cd_device_get_profile_for_qualifier_sync Fixture.offline (Some "*.CMYK.*")
                                           Fixture.bound
  = Done ((None,
           Some {| domain := "cd_device_error";
                   message := "Failed to get a suitable profile: no such object" |}),
          {| priv := priv Fixture.bound;
             requests := requests Fixture.bound
                         ++ [ProxyCall "/device/lvds1" "GetProfileForQualifier"
                                       (GVTuple [GVString "*.CMYK.*"])];
             emitted := emitted Fixture.bound;
             messages := messages Fixture.bound |}).
Proof.
  apply (qualifier_lookup_call_fails Fixture.offline Fixture.bound
           Fixture.listening_proxy "*.CMYK.*" Fixture.refusal);
    reflexivity.
Defined.

Lemma qualifier_lookup_resolution_fails_witness :
  cd_device_get_profile_for_qualifier_sync Fixture.stale (Some "*.CMYK.*")
                                           Fixture.bound
  = Done ((None, Some Fixture.refusal),
          {| priv := priv Fixture.bound;
             requests := (requests Fixture.bound
                          ++ [ProxyCall "/device/lvds1" "GetProfileForQualifier"
                                        (GVTuple [GVString "*.CMYK.*"])])
                         ++ [ProfileSetObjectPath "/profile/bad"];
             emitted := emitted Fixture.bound;
             messages := messages Fixture.bound |}).
Proof.
  apply (qualifier_lookup_resolution_fails Fixture.stale Fixture.bound
           Fixture.listening_proxy "*.CMYK.*" "/profile/bad" Fixture.refusal);
    reflexivity.
Defined.

Lemma successful_bind_trace_witness :
  exists st',
    cd_device_set_object_path_sync Fixture.service Fixture.interface
      Fixture.kind_from_string Fixture.daemon "/device/lvds1" cd_device_new
    = Done ((true, None), st')
    /\ requests st'
       = (requests cd_device_new
          ++ ProxyNewForBus Fixture.service "/device/lvds1" Fixture.interface
             :: map ProfileSetObjectPath ["/profile/1"; "/profile/2"])%list
    /\ messages st'
       = (messages cd_device_new
          ++ [LogDebug ("Connected to device " ++ fmt_s (id (priv st')))])%list
    /\ emitted st' = emitted cd_device_new.
Proof.
  apply (successful_bind_trace Fixture.service Fixture.interface
           Fixture.kind_from_string Fixture.daemon cd_device_new "/device/lvds1"
           Fixture.display_properties ["/profile/1"; "/profile/2"]).
  - reflexivity.
  - reflexivity.
  - exists "xrandr-lvds1". reflexivity.
  - exists "display". reflexivity.
  - exists "LVDS panel". reflexivity.
  - exists 1300000000%N. split; [reflexivity | reflexivity].
  - reflexivity.
  - reflexivity.
Defined.

Lemma invalid_property_id_witness :
  exists text,
    cd_device_set_property 7 (GValueString (Some "x")) Fixture.bound
    = Done (tt, {| priv := priv Fixture.bound; requests := requests Fixture.bound;
                   emitted := emitted Fixture.bound;
                   messages := messages Fixture.bound ++ [LogWarning text] |})
    /\ cd_device_get_property 7 Fixture.bound
       = Done (None, {| priv := priv Fixture.bound;
                        requests := requests Fixture.bound;
                        emitted := emitted Fixture.bound;
                        messages := messages Fixture.bound ++ [LogWarning text] |}).
Proof.
  apply (invalid_property_id Fixture.bound 7 (GValueString (Some "x"))).
  right. unfold PROP_LAST. lia.
Defined.

Lemma bind_retry_after_refusal_witness :
  exists first st',
    bind (cd_device_set_object_path_sync Fixture.service Fixture.interface
            Fixture.kind_from_string Fixture.flaky "/device/lvds1")
         (fun r =>
            bind (cd_device_set_object_path_sync Fixture.service Fixture.interface
                    Fixture.kind_from_string Fixture.flaky "/device/lvds1")
                 (fun r' => ret (r, r'))) cd_device_new
    = Done (((false, Some first), (true, None)), st')
    /\ consistent Fixture.service Fixture.interface st'
    /\ object_path (priv st') = Some "/device/lvds1"
    /\ length (profiles (priv st')) = length ["/profile/1"; "/profile/2"].
Proof.
  apply (bind_retry_after_refusal Fixture.service Fixture.interface
           Fixture.kind_from_string Fixture.flaky cd_device_new
           "/device/lvds1" "/device/lvds1" Fixture.refusal
           Fixture.display_properties ["/profile/1"; "/profile/2"]).
  - reflexivity.
  - reflexivity.
  - reflexivity.
  - exists "xrandr-lvds1". reflexivity.
  - exists "display". reflexivity.
  - exists "LVDS panel". reflexivity.
  - exists 1300000000%N. split; [reflexivity | reflexivity].
  - reflexivity.
  - reflexivity.
Defined.

